(** * Tool-augmented agent scripts: a shallow embedding

    The repository holds three demonstration scripts:
    - [agents/agent1-search.py]: a ReAct search agent with an interactive loop,
    - [agents/curr_conv_agent_no_func.py]: a currency agent with the tools
      [fetch_live_rate] and [calculate],
    - [agents/smolaagents.py]: a weather agent with three randomised tools.

    Python values are modelled as follows.  A [str] is a Rocq [string] whose
    characters are read as the code points 0..255; [str.lower] and [str.strip]
    are written out for that range.  A call that may raise returns an
    [outcome].  The network, the expression evaluator, the random generator
    and the language model are collaborators outside the scripts: they enter
    as variables of a Section, so every theorem holds for each of their
    behaviours. *)

From Stdlib Require Import String Ascii List ZArith NArith Bool Lia.
From Stdlib Require Import DecimalString.
Import ListNotations.

Set Warnings "-register-all".

Local Open Scope string_scope.
Local Open Scope Z_scope.

(* ------------------------------------------------------------------ *)
(** ** Python strings *)

Module PyStr.

Definition ord (c : ascii) : Z := Z.of_N (N_of_ascii c).
Definition chr (z : Z) : ascii := ascii_of_N (Z.to_N z).

(** [c.isupper()] for a code point below 256: A-Z, and the Latin-1 capitals
    0xC0-0xDE without the multiplication sign 0xD7. *)
Definition is_cased_upper (c : ascii) : bool :=
  let n := ord c in
  ((65 <=? n) && (n <=? 90))
  || ((192 <=? n) && (n <=? 222) && negb (n =? 215)).

Definition lower_char (c : ascii) : ascii :=
  if is_cased_upper c then chr (ord c + 32) else c.

(** [s.lower()] *)
Fixpoint lower (s : string) : string :=
  match s with
  | EmptyString => EmptyString
  | String c s' => String (lower_char c) (lower s')
  end.

(** [c.isspace()] for a code point below 256. *)
Definition is_space (c : ascii) : bool :=
  let n := ord c in
  ((9 <=? n) && (n <=? 13)) || ((28 <=? n) && (n <=? 32))
  || (n =? 133) || (n =? 160).

Fixpoint lstrip (s : string) : string :=
  match s with
  | EmptyString => EmptyString
  | String c s' => if is_space c then lstrip s' else s
  end.

Fixpoint rstrip (s : string) : string :=
  match s with
  | EmptyString => EmptyString
  | String c s' =>
      match rstrip s' with
      | EmptyString => if is_space c then EmptyString else String c EmptyString
      | r => String c r
      end
  end.

(** [s.strip()] *)
Definition strip (s : string) : string := rstrip (lstrip s).

(** Truth value of a string: [not s] holds exactly for the empty string. *)
Definition truthy (s : string) : bool :=
  match s with EmptyString => false | String _ _ => true end.

(** [needle in haystack] for two strings. *)
Definition contains (needle haystack : string) : bool :=
  match index 0 needle haystack with Some _ => true | None => false end.

End PyStr.

(* ------------------------------------------------------------------ *)
(** ** Exceptions and outcomes *)

(** The part of the built-in exception hierarchy the scripts meet.  The first
    four classes derive from [BaseException] only; every other class derives
    from [Exception]. *)
Inductive exc_class : Type :=
| BaseException
| SystemExit
| KeyboardInterrupt
| GeneratorExit
| Exception
| RuntimeError
| TypeError
| ValueError
| OverflowError
| ZeroDivisionError
| NameError
| SyntaxError
| AttributeError
| KeyError
| EOFError
| OtherException (name : string).

(** [isinstance(e, Exception)]: what [except Exception] catches. *)
Definition is_Exception (c : exc_class) : bool :=
  match c with
  | BaseException | SystemExit | KeyboardInterrupt | GeneratorExit => false
  | _ => true
  end.

Definition is_RuntimeError (c : exc_class) : bool :=
  match c with RuntimeError => true | _ => false end.

(** A raised exception: its class, [str(e)], and the exception that was being
    handled when it was raised ([__context__]). *)
Inductive pyexc : Type :=
| mk_exc (cls : exc_class) (msg : string) (context : option pyexc).

Definition exc_cls (e : pyexc) : exc_class := let 'mk_exc c _ _ := e in c.
Definition exc_str (e : pyexc) : string := let 'mk_exc _ m _ := e in m.
Definition exc_context (e : pyexc) : option pyexc := let 'mk_exc _ _ x := e in x.

Inductive outcome (A : Type) : Type :=
| Returns (a : A)
| Raises (e : pyexc).
Arguments Returns {A} a.
Arguments Raises {A} e.

(** [try: body  except Exception as e: handler e] *)
Definition try_except_Exception {A} (body : outcome A)
    (handler : pyexc -> outcome A) : outcome A :=
  match body with
  | Returns a => Returns a
  | Raises e => if is_Exception (exc_cls e) then handler e else Raises e
  end.

Definition bind {A B} (m : outcome A) (k : A -> outcome B) : outcome B :=
  match m with
  | Returns a => k a
  | Raises e => Raises e
  end.

Notation "x <- m ;; k" := (bind m (fun x => k))
  (at level 61, m at next level, right associativity).

(* ------------------------------------------------------------------ *)
(** ** [calculate] (curr_conv_agent_no_func.py) *)

(** A dictionary literal whose values are dictionaries: enough for the
    globals handed to [eval]. *)
Inductive pydict : Type :=
| Dict (items : list (string * pydict)).

(** [{"__builtins__": {}}] *)
Definition calculate_globals : pydict := Dict [("__builtins__", Dict [])].

Section Calculate.

(** Objects an expression evaluates to, and Python floats. *)
Variables pyobj pyfloat : Type.
(** [eval(expression, globals)]: the general-purpose evaluator. *)
Variable py_eval : string -> pydict -> outcome pyobj.
(** [float(result)] *)
Variable py_float : pyobj -> outcome pyfloat.
(** [str(e)], as the f-string of the handler forms it: the [__str__] of
    whatever exception the evaluated code raised, which may itself raise. *)
Variable py_str : pyexc -> outcome string.

(** The body of the [try]: evaluate, then convert. *)
Definition calculate_body (expression : string) : outcome pyfloat :=
  result <- py_eval expression calculate_globals ;;
  py_float result.

(** The handler: the message is formed first, inside the [except] block, and
    an exception raised while forming it leaves the function in place of the
    [RuntimeError]. *)
Definition calculate_handler (e : pyexc) : outcome pyfloat :=
  text <- py_str e ;;
  Raises (mk_exc RuntimeError ("Calculation error: " ++ text) (Some e)).

Definition calculate (expression : string) : outcome pyfloat :=
  try_except_Exception (calculate_body expression) calculate_handler.

End Calculate.

Arguments calculate {pyobj pyfloat} py_eval py_float py_str expression.
Arguments calculate_handler {pyfloat} py_str e.
Arguments calculate_body {pyobj pyfloat} py_eval py_float expression.

(* ------------------------------------------------------------------ *)
(** ** [fetch_live_rate] (curr_conv_agent_no_func.py) *)

(** A decoded JSON document, as [resp.json()] returns it: [None], [bool],
    [int], [float], [str], [list] and [dict] (the items of a dict in order,
    keys distinct). *)
Inductive json (F : Type) : Type :=
| JNull
| JBool (b : bool)
| JInt (z : Z)
| JFloat (f : F)
| JStr (s : string)
| JList (l : list (json F))
| JDict (items : list (string * json F)).
Arguments JNull {F}.
Arguments JBool {F} b.
Arguments JInt {F} z.
Arguments JFloat {F} f.
Arguments JStr {F} s.
Arguments JList {F} l.
Arguments JDict {F} items.

(** [requests.get(url, timeout=...)] as issued by the script. *)
Record request : Type := mk_request { req_url : string; req_timeout : Z }.

(** What [requests.get] raises: all are subclasses of
    [requests.RequestException], itself an [Exception]. *)
Inductive requests_error : Type :=
| ConnectionFailed
| ConnectTimeout
| ReadTimeout
| TooManyRedirects
| OtherRequestError (detail : string).

Definition is_timeout (e : requests_error) : bool :=
  match e with ConnectTimeout | ReadTimeout => true | _ => false end.

(** A response: its status code and its body decoded as JSON ([None] when the
    body is not JSON, so that [resp.json()] raises). *)
Record response (F : Type) : Type :=
  mk_response { status_code : Z; json_body : option (json F) }.
Arguments mk_response {F} status_code json_body.
Arguments status_code {F} r.
Arguments json_body {F} r.

(** The exceptions that can arise inside the [try] of [fetch_live_rate]; every
    one is an [Exception], so the handler catches it. *)
Inductive fetch_fault : Type :=
| RequestFault (e : requests_error)
| HTTPError (status : Z)
| JSONDecodeError
| FaultAttributeError
| FaultTypeError
| FaultValueError
| FaultOverflowError
| FaultKeyError.

(** One pass through the loop body: a rate was returned, the body ran to its
    end without returning, or an exception was caught. *)
Inductive attempt (F : Type) : Type :=
| Rate (f : F)
| NoRate
| Caught (e : fetch_fault).
Arguments Rate {F} f.
Arguments NoRate {F}.
Arguments Caught {F} e.

Fixpoint dict_get {V : Type} (key : string) (items : list (string * V)) : option V :=
  match items with
  | [] => None
  | (k, v) :: rest => if String.eqb k key then Some v else dict_get key rest
  end.

(** The elements of a list up to and including the first that satisfies [p]:
    what a [for] loop visits when it returns at that element. *)
Fixpoint up_to_first {A : Type} (p : A -> bool) (l : list A) : list A :=
  match l with
  | [] => []
  | x :: rest => if p x then [x] else x :: up_to_first p rest
  end.

Definition json_is_str {F} (s : string) (j : json F) : bool :=
  match j with JStr t => String.eqb t s | _ => false end.

Section FetchLiveRate.

Variable F : Type.
(** [float(n)] for an [int]: [None] stands for [OverflowError]. *)
Variable float_of_int : Z -> option F.
(** [float(s)] for a [str]: [None] stands for [ValueError]. *)
Variable float_of_str : string -> option F.
(** The network: what each request meets. *)
Variable http_get : request -> requests_error + response F.

(** [resp.raise_for_status()] *)
Definition raise_for_status (r : response F) : option fetch_fault :=
  if (400 <=? status_code r) && (status_code r <? 600)
  then Some (HTTPError (status_code r)) else None.

(** [data.get(base, {})] *)
Definition data_get (data : json F) (base : string) : fetch_fault + json F :=
  match data with
  | JDict items =>
      match dict_get base items with
      | Some v => inr v
      | None => inr (JDict [])
      end
  | _ => inl FaultAttributeError
  end.

(** [target in rates] *)
Definition rates_contains (target : string) (rates : json F) : fetch_fault + bool :=
  match rates with
  | JDict items =>
      inr (match dict_get target items with Some _ => true | None => false end)
  | JStr s => inr (PyStr.contains target s)
  | JList l => inr (existsb (json_is_str target) l)
  | _ => inl FaultTypeError
  end.

(** [rates[target]] *)
Definition rates_getitem (target : string) (rates : json F) : fetch_fault + json F :=
  match rates with
  | JDict items =>
      match dict_get target items with
      | Some v => inr v
      | None => inl FaultKeyError
      end
  | _ => inl FaultTypeError
  end.

(** [float(v)] *)
Definition to_float (v : json F) : fetch_fault + F :=
  match v with
  | JFloat f => inr f
  | JInt z =>
      match float_of_int z with Some f => inr f | None => inl FaultOverflowError end
  | JBool b =>
      match float_of_int (if b then 1 else 0) with
      | Some f => inr f
      | None => inl FaultOverflowError
      end
  | JStr s =>
      match float_of_str s with Some f => inr f | None => inl FaultValueError end
  | _ => inl FaultTypeError
  end.

(** The loop body for one url, with the [except Exception: continue]. *)
Definition try_endpoint (base target : string) (req : request) : attempt F :=
  match http_get req with
  | inl e => Caught (RequestFault e)
  | inr resp =>
      match raise_for_status resp with
      | Some e => Caught e
      | None =>
          match json_body resp with
          | None => Caught JSONDecodeError
          | Some data =>
              match data_get data base with
              | inl e => Caught e
              | inr rates =>
                  match rates_contains target rates with
                  | inl e => Caught e
                  | inr false => NoRate
                  | inr true =>
                      match rates_getitem target rates with
                      | inl e => Caught e
                      | inr v =>
                          match to_float v with
                          | inl e => Caught e
                          | inr f => Rate f
                          end
                      end
                  end
              end
          end
      end
  end.

Definition urls (base : string) : list request :=
  [ mk_request
      ("https://cdn.jsdelivr.net/npm/@fawazahmed0/currency-api@latest/v1/currencies/"
         ++ base ++ ".json") 5;
    mk_request
      ("https://latest.currency-api.pages.dev/v1/currencies/" ++ base ++ ".json") 5 ].

(** [for url in urls: ...]: the requests issued, each with what came of it,
    and the rate returned from inside the loop, if any. *)
Fixpoint for_urls (base target : string) (reqs : list request)
  : list (request * attempt F) * option F :=
  match reqs with
  | [] => ([], None)
  | req :: rest =>
      match try_endpoint base target req with
      | Rate f => ([(req, Rate f)], Some f)
      | a => let '(log, r) := for_urls base target rest in ((req, a) :: log, r)
      end
  end.

Definition failed_message (from_currency to_currency : string) : string :=
  "Failed to fetch exchange rate from " ++ from_currency ++ " to " ++ to_currency.

(** [fetch_live_rate]: the log of requests and the outcome of the call. *)
Definition fetch_live_rate (from_currency to_currency : string)
  : list (request * attempt F) * outcome F :=
  let base := PyStr.lower from_currency in
  let target := PyStr.lower to_currency in
  let '(log, r) := for_urls base target (urls base) in
  match r with
  | Some f => (log, Returns f)
  | None =>
      (log, Raises (mk_exc RuntimeError (failed_message from_currency to_currency) None))
  end.

Definition requests_of (log : list (request * attempt F)) : list request :=
  map fst log.

(** An endpoint yields a rate when its pass through the loop body returns. *)
Definition yields (base target : string) (req : request) : bool :=
  match try_endpoint base target req with Rate _ => true | _ => false end.

End FetchLiveRate.

Arguments try_endpoint {F} float_of_int float_of_str http_get base target req.
Arguments for_urls {F} float_of_int float_of_str http_get base target reqs.
Arguments fetch_live_rate {F} float_of_int float_of_str http_get
  from_currency to_currency.
Arguments yields {F} float_of_int float_of_str http_get base target req.
Arguments requests_of {F} log.

(* ------------------------------------------------------------------ *)
(** ** The weather tools (smolaagents.py) *)

Section Random.

(** The state of the [random] module's generator. *)
Variable rng : Type.
(** One draw of the generator for a range of [n] values: an integer, of
    which only the residue modulo [n] is used, and the next state.  Every
    generator that picks one of [n] values is such a [draw]. *)
Variable draw : Z -> rng -> Z * rng.

Definition randbelow (n : Z) (g : rng) : Z * rng :=
  let '(r, g') := draw n g in (r mod n, g').

(** [random.randint(a, b)]: an integer of [a..b], both ends included;
    [ValueError] on an empty range. *)
Definition randint (a b : Z) (g : rng) : outcome (Z * rng) :=
  if b <? a
  then Raises (mk_exc ValueError "empty range for randrange()" None)
  else let '(k, g') := randbelow (b - a + 1) g in Returns (a + k, g').

(** [random.choice(seq)] *)
Definition choice {A} (seq : list A) (g : rng) : outcome (A * rng) :=
  match seq with
  | [] => Raises (mk_exc (OtherException "IndexError")
                    "Cannot choose from an empty sequence" None)
  | x :: _ =>
      let '(k, g') := randbelow (Z.of_nat (length seq)) g in
      Returns (nth (Z.to_nat k) seq x, g')
  end.

Definition weather_conditions : list string :=
  ["sunny"; "rainy"; "cloudy"; "snowy"; "windy"].
Definition temperatures : list Z := [15; 20; 25; 30; 5; 10].

(** The pieces of the sentence [get_weather] returns. *)
Record weather_report : Type :=
  mk_report { report_city : string; report_condition : string; report_temp : Z }.

Definition get_weather (city : string) (g : rng) : outcome (weather_report * rng) :=
  cg <- choice weather_conditions g ;;
  tg <- choice temperatures (snd cg) ;;
  Returns (mk_report city (fst cg) (fst tg), snd tg).

Definition get_temperature (city : string) (g : rng) : outcome (Z * rng) :=
  randint (-10) 40 g.

Definition get_humidity (city : string) (g : rng) : outcome (Z * rng) :=
  randint 30 90 g.

End Random.

Arguments randbelow {rng} draw n g.
Arguments randint {rng} draw a b g.
Arguments choice {rng} draw {A} seq g.
Arguments get_weather {rng} draw city g.
Arguments get_temperature {rng} draw city g.
Arguments get_humidity {rng} draw city g.

(* ------------------------------------------------------------------ *)
(** ** Tool declarations, model configurations and agents *)

Inductive pytype : Type := TStr | TInt | TFloat | TBool.

(** A tool as the frameworks see it: the name (for [@tool], the name of the
    function), the typed parameters and the return type. *)
Record tool : Type :=
  mk_tool { tool_name : string;
            tool_inputs : list (string * pytype);
            tool_output : pytype }.

Definition web_search_tool : tool :=
  mk_tool "web_search" [("query", TStr)] TStr.
Definition fetch_live_rate_tool : tool :=
  mk_tool "fetch_live_rate" [("from_currency", TStr); ("to_currency", TStr)] TFloat.
Definition calculate_tool : tool :=
  mk_tool "calculate" [("expression", TStr)] TFloat.
Definition get_weather_tool : tool :=
  mk_tool "get_weather" [("city", TStr)] TStr.
Definition get_temperature_tool : tool :=
  mk_tool "get_temperature" [("city", TStr)] TInt.
Definition get_humidity_tool : tool :=
  mk_tool "get_humidity" [("city", TStr)] TInt.

(** A value given for a keyword argument of a model constructor.  A float
    literal is kept as its decimal digits and exponent: [0.0] is
    [VFloat 0 (-1)]. *)
Inductive kwvalue : Type :=
| VNone
| VStr (s : string)
| VInt (z : Z)
| VFloat (digits exponent : Z).

(** The keyword arguments a script passes to its model constructor, in the
    order written. *)
Definition llm_config : Type := list (string * kwvalue).

Inductive agent_kind : Type :=
| ZeroShotReact     (* LangChain [initialize_agent], ZERO_SHOT_REACT_DESCRIPTION *)
| CodeAgent         (* smolagents *)
| ToolCallingAgent. (* smolagents *)

Record agent : Type :=
  mk_agent { kind : agent_kind;
             tools : list tool;
             model : llm_config;
             (** [max_steps], when the script gives one. *)
             max_steps : option nat;
             (** [add_base_tools], when the script gives one. *)
             add_base_tools : option bool;
             (** [verbose], when the script gives one. *)
             verbose : option bool }.

(** agent1-search.py: [llm = OllamaLLM(model="llama3.2", temperature=0)] *)
Definition search_llm : llm_config :=
  [("model", VStr "llama3.2"); ("temperature", VInt 0)].

(** agent1-search.py: the module-level [agent]. *)
Definition search_agent : agent :=
  mk_agent ZeroShotReact [web_search_tool] search_llm None None (Some true).

Definition of_optional_str (o : option string) : kwvalue :=
  match o with Some s => VStr s | None => VNone end.

(** curr_conv_agent_no_func.py: [create_agent(model_id, api_base)]; [None]
    for [api_base] is Python's [None]. *)
Definition create_agent (model_id : string) (api_base : option string) : agent :=
  let model :=
    [("model_id", VStr model_id);
     ("api_base", of_optional_str api_base);
     ("temperature", VFloat 0 (-1))] in
  mk_agent CodeAgent [fetch_live_rate_tool; calculate_tool] model
    (Some 10%nat) (Some false) None.

(** The defaults of [create_agent]'s parameters. *)
Definition default_model_id : string := "gpt-4o-mini".
Definition default_api_base : option string := None.

(** smolaagents.py *)
Definition MODEL : string := "ollama/llama3.2:latest".

Definition weather_llm : llm_config :=
  [("model_id", VStr MODEL); ("api_base", VStr "http://localhost:11434")].

Definition create_weather_agent : agent :=
  mk_agent ToolCallingAgent
    [get_weather_tool; get_temperature_tool; get_humidity_tool]
    weather_llm None None None.

(** The agents the three scripts construct. *)
Definition script_agents : list agent :=
  [search_agent; create_agent default_model_id default_api_base; create_weather_agent].

Definition tool_names (a : agent) : list string := map tool_name (tools a).

(** A configuration names its model when one of the constructors' model
    keywords holds a string. *)
Definition is_str (o : option kwvalue) : bool :=
  match o with Some (VStr _) => true | _ => false end.
Definition is_number (o : option kwvalue) : bool :=
  match o with Some (VInt _) | Some (VFloat _ _) => true | _ => false end.

Definition has_model_identifier (c : llm_config) : bool :=
  is_str (dict_get "model" c) || is_str (dict_get "model_id" c).
Definition has_endpoint (c : llm_config) : bool :=
  is_str (dict_get "api_base" c) || is_str (dict_get "base_url" c).
Definition has_temperature (c : llm_config) : bool :=
  is_number (dict_get "temperature" c).

(** All three settings at once. *)
Definition fully_configured (c : llm_config) : bool :=
  has_model_identifier c && has_endpoint c && has_temperature c.

(* ------------------------------------------------------------------ *)
(** ** The command-line drivers *)

(** What [agent.run(query)] comes to, seen from a driver: the final answer,
    or an [Exception] [e] with [str(e) = message]. *)
Inductive run_result : Type :=
| Answer (text : string)
| RunError (message : string).

(** How a driver ends: it runs to its end, or an exception nobody catches
    ends it with a traceback. *)
Inductive exit_status : Type :=
| Finished
| Uncaught (c : exc_class).

(** Standard input is the list of lines still to be read; [input()] takes the
    first line, and raises [EOFError] when none is left. *)
Definition input (stdin : list string) : outcome (string * list string) :=
  match stdin with
  | [] => Raises (mk_exc EOFError "EOF when reading a line" None)
  | line :: rest => Returns (line, rest)
  end.

Module SearchCLI.

(** What the script writes, and the calls it makes, in order. *)
Inductive event : Type :=
| PrintBanner                       (* search agent (type 'exit' to quit) *)
| Prompt                            (* the prompt written by [input] *)
| PrintGoodbye
| CallRun (question : string)       (* [agent.run(question)] *)
| PrintAnswer (answer : string)
| PrintError (message : string).

(** [question.lower() == "exit"] *)
Definition is_exit (question : string) : bool :=
  String.eqb (PyStr.lower question) "exit".

(** A line of input makes the loop stop. *)
Definition quits (line : string) : bool := is_exit (PyStr.strip line).

Section Loop.

(** The [n]-th call of [agent.run]. *)
Variable agent_run : nat -> string -> run_result.

(** One [try ... except Exception] around [agent.run]. *)
Definition ask (n : nat) (question : string) : list event :=
  match agent_run n question with
  | Answer answer => [CallRun question; PrintAnswer answer]
  | RunError message => [CallRun question; PrintError message]
  end.

(** [while True: ...], after [n] calls of [agent.run]. *)
Fixpoint loop (n : nat) (stdin : list string) : list event * exit_status :=
  match stdin with
  | [] => ([Prompt], Uncaught EOFError)
  | line :: rest =>
      let question := PyStr.strip line in
      if is_exit question
      then ([Prompt; PrintGoodbye], Finished)
      else
        let '(evs, st) := loop (S n) rest in
        (Prompt :: (ask n question ++ evs)%list, st)
  end.

(** The [__main__] block. *)
Definition main (stdin : list string) : list event * exit_status :=
  let '(evs, st) := loop 0 stdin in (PrintBanner :: evs, st).

End Loop.

(** The number of lines read. *)
Definition prompts (evs : list event) : nat :=
  length (filter (fun e => match e with Prompt => true | _ => false end) evs).

(** The questions handed to [agent.run]. *)
Fixpoint questions (evs : list event) : list string :=
  match evs with
  | [] => []
  | CallRun q :: rest => q :: questions rest
  | _ :: rest => questions rest
  end.

(** The answers and error messages printed. *)
Fixpoint printed (evs : list event) : list run_result :=
  match evs with
  | [] => []
  | PrintAnswer a :: rest => Answer a :: printed rest
  | PrintError m :: rest => RunError m :: printed rest
  | _ :: rest => printed rest
  end.

(** The lines before the first one that quits. *)
Fixpoint before_exit (stdin : list string) : list string :=
  match stdin with
  | [] => []
  | line :: rest => if quits line then [] else line :: before_exit rest
  end.

(** The results of [agent.run] on the given lines, numbered from [n]. *)
Fixpoint results (agent_run : nat -> string -> run_result) (n : nat)
    (lines : list string) : list run_result :=
  match lines with
  | [] => []
  | line :: rest => agent_run n (PyStr.strip line) :: results agent_run (S n) rest
  end.

End SearchCLI.

Module WeatherCLI.

(** What [main] writes and the calls it makes, one event for each statement
    of the function. *)
Inductive event : Type :=
| PrintRule (c : ascii) (blank_before : bool)
    (* a line of 70 [c]; preceded by an empty line when [blank_before] *)
| PrintTitle                         (* SMOLAGENTS - Simple Weather Assistant Agent *)
| PrintInitializing                  (* Initializing agent... *)
| CreateAgent                        (* [create_weather_agent()] *)
| PrintReady                         (* Agent ready! *)
| PrintExamplesHeading               (* Example Queries: *)
| PrintExample (number : nat) (query : string)
| PrintOwnQueryHeading               (* Or enter your own query: *)
| Prompt                             (* the prompt written by [input] *)
| PrintDefault (query : string)      (* [Using default query]: ... *)
| PrintQuery (query : string)
| PrintProcessing                    (* Agent is processing... *)
| CallRun (query : string)           (* [agent.run(user_query)] *)
| PrintResponseHeading               (* AGENT RESPONSE: *)
| PrintResponse (response : string)
| PrintError (message : string).

Definition queries : list string :=
  [ "What's the weather like in Paris?";
    "Tell me about the weather in Tokyo and its humidity";
    "Is it hot in New York today?";
    "Compare the temperature in London and Berlin" ].

(** [queries[0]] *)
Definition first_query : string := nth 0 queries "".

(** [for i, query in enumerate(queries, i): print(f"{i}. {query}")] *)
Fixpoint print_examples (i : nat) (qs : list string) : list event :=
  match qs with
  | [] => []
  | q :: rest => PrintExample i q :: print_examples (S i) rest
  end.

(** Everything [main] does before it reads the line. *)
Definition header : list event :=
  ([ PrintRule "=" true; PrintTitle; PrintRule "=" false;
     PrintInitializing; CreateAgent; PrintReady;
     PrintRule "=" false; PrintExamplesHeading; PrintRule "=" false ]
   ++ print_examples 1 queries
   ++ [ PrintRule "-" true; PrintOwnQueryHeading; PrintRule "-" false; Prompt ])%list.

Section Main.

Variable agent_run : string -> run_result.

(** The query [main] settles on for a line of input, with the notice it
    prints when it falls back on the first example. *)
Definition choose_query (line : string) : list event * string :=
  let user_query := PyStr.strip line in
  if negb (PyStr.truthy user_query)
  then ([PrintDefault first_query], first_query)
  else ([], user_query).

(** The [try ... except Exception] around [agent.run]: the call, and what
    is printed after it. *)
Definition report (user_query : string) : list event :=
  match agent_run user_query with
  | Answer response =>
      [ CallRun user_query;
        PrintRule "=" true; PrintResponseHeading; PrintRule "=" false;
        PrintResponse response; PrintRule "=" false ]
  | RunError message => [CallRun user_query; PrintError message]
  end.

Definition main (stdin : list string) : list event * exit_status :=
  match input stdin with
  | Raises e => (header, Uncaught (exc_cls e))
  | Returns (line, _) =>
      let '(notice, user_query) := choose_query line in
      ((header ++ notice
          ++ [PrintQuery user_query; PrintProcessing; PrintRule "-" false]
          ++ report user_query)%list,
       Finished)
  end.

End Main.

(** The queries handed to [agent.run]. *)
Fixpoint run_queries (evs : list event) : list string :=
  match evs with
  | [] => []
  | CallRun q :: rest => q :: run_queries rest
  | _ :: rest => run_queries rest
  end.


End WeatherCLI.

(* ------------------------------------------------------------------ *)
(** ** The reasoning loop *)

(** The scripts hand their tools and model to an agent framework and call its
    [run]; the loop behind that call is not among the repository's files.
    Every definition of this module that stands for a part of it is written
    as the specification describes that part (sections 3, 4, 6 and 7). *)
Module ReasoningLoop.

(** Modelled from the spec: a primitive argument or result value (section 3,
    [parameter_schema] over primitive types). *)
Inductive value : Type :=
| PStr (s : string)
| PInt (z : Z)
| PFloat (digits exponent : Z)
| PBool (b : bool).

Definition type_of (v : value) : pytype :=
  match v with
  | PStr _ => TStr | PInt _ => TInt | PFloat _ _ => TFloat | PBool _ => TBool
  end.

Definition pytype_eqb (a b : pytype) : bool :=
  match a, b with
  | TStr, TStr | TInt, TInt | TFloat, TFloat | TBool, TBool => true
  | _, _ => false
  end.

(** Modelled from the spec: the arguments of a tool call, by field name
    (section 3, [ToolCall{toolName, arguments}]); the framework's own
    representation is missing. *)
Definition arguments : Type := list (string * value).

(** Modelled from the spec: [ToolSpec] (section 3), the callable capability
    with its name, description, ordered parameter schema (name, primitive
    type, required) and pure [invoke], which returns a value or a cause of
    failure. *)
Record ToolSpec : Type :=
  mk_spec { name : string;
            description : string;
            parameter_schema : list (string * pytype * bool);
            invoke : arguments -> value + string }.

(** Modelled from the spec: [ToolCall{toolName, arguments}] (section 3). *)
Record ToolCall : Type := mk_call { toolName : string; callArguments : arguments }.

(** Modelled from the spec: the tool errors of section 7. *)
Inductive ToolError : Type :=
| UnknownToolError (tool : string)
| InvalidArgumentsError (tool : string)
| ToolExecutionError (tool : string) (cause : string).

(** Modelled from the spec: [TranscriptEntry] (section 3). *)
Inductive TranscriptEntry : Type :=
| UserMessage (text : string)
| ModelUtterance (text : string) (requestedAction : option ToolCall)
| ToolCallEntry (call : ToolCall)
| ToolResult (tool : string) (result : value + ToolError).

Definition Transcript : Type := list TranscriptEntry.

(** Modelled from the spec: the parser's sum type (section 9). *)
Inductive parsed : Type :=
| ToolCallRequest (text : string) (call : ToolCall)
| FinalAnswer (text : string)
| Malformed.

(** Modelled from the spec: the errors [run] surfaces to its caller
    (sections 4.2 and 7). *)
Inductive LoopError : Type :=
| MalformedModelOutputError
| BackendUnavailableError
| StepBudgetExceededError (lastTranscript : Transcript).

(** Modelled from the spec: the tool registry (sections 2 and 4.1), the
    specs in registration order, looked up by name. *)
Definition Registry : Type := list ToolSpec.

Fixpoint find_tool (reg : Registry) (n : string) : option ToolSpec :=
  match reg with
  | [] => None
  | spec :: rest => if String.eqb (name spec) n then Some spec else find_tool rest n
  end.

(** Modelled from the spec: [register] (section 4.1) fails with
    [DuplicateToolError], here [None], when the name is present; specs stay
    in registration order. *)
Definition register (spec : ToolSpec) (reg : Registry) : option Registry :=
  match find_tool reg (name spec) with
  | Some _ => None
  | None => Some (reg ++ [spec])%list
  end.

(** Modelled from the spec: [describe] (section 4.1). *)
Definition describe (reg : Registry) : list ToolSpec := reg.

(** Modelled from the spec: arguments satisfy a schema when no required
    field is missing, every field is declared, and every field has its
    declared primitive type (section 4.1). *)
Definition declared (schema : list (string * pytype * bool)) (field : string * value)
  : bool :=
  existsb (fun p => String.eqb (fst (fst p)) (fst field)
                    && pytype_eqb (snd (fst p)) (type_of (snd field))) schema.

Definition supplied (args : arguments) (p : string * pytype * bool) : bool :=
  negb (snd p) || existsb (fun field => String.eqb (fst field) (fst (fst p))) args.

Definition satisfies (schema : list (string * pytype * bool)) (args : arguments) : bool :=
  forallb (supplied args) schema && forallb (declared schema) args.

(** Modelled from the spec: [dispatch] (section 4.1). *)
Definition dispatch (reg : Registry) (n : string) (args : arguments)
  : value + ToolError :=
  match find_tool reg n with
  | None => inr (UnknownToolError n)
  | Some spec =>
      if satisfies (parameter_schema spec) args
      then match invoke spec args with
           | inl v => inl v
           | inr cause => inr (ToolExecutionError n cause)
           end
      else inr (InvalidArgumentsError n)
  end.

(** Modelled from the spec: [AgentSession] (section 3) owns one registry and
    one transcript. *)
Record AgentSession : Type :=
  mk_session { registry : Registry; transcript : Transcript }.

(** The model turns a transcript records: those that asked for a tool, and
    those that gave a final answer. *)
Fixpoint tool_requests (t : Transcript) : nat :=
  match t with
  | [] => O
  | ModelUtterance _ (Some _) :: rest => S (tool_requests rest)
  | _ :: rest => tool_requests rest
  end.

Fixpoint final_answers (t : Transcript) : nat :=
  match t with
  | [] => O
  | ModelUtterance _ None :: rest => S (final_answers rest)
  | _ :: rest => final_answers rest
  end.

(** Modelled from the spec: what [run] leaves behind (section 4.2): the final
    answer or the error, the session with its transcript, and the number of
    model turns (calls of the backend's [complete]) taken. *)
Record Run : Type :=
  mk_run { result : string + LoopError; session : AgentSession; turns : nat }.

Section Loop.

(** Modelled from the spec: the backend boundary (section 6),
    [complete(promptContext) -> rawText] over the capability listing and
    the transcript; [None] is [BackendUnavailableError]. *)
Variable complete : list ToolSpec -> Transcript -> option string.
(** Modelled from the spec: the deterministic parsing strategy (section
    4.2, step 2b). *)
Variable parse : string -> parsed.

(** Modelled from the spec: step 2 of the algorithm of section 4.2, with
    [budget] steps left and [n] model turns taken. *)
Fixpoint steps (budget : nat) (reg : Registry) (t : Transcript) (n : nat) : Run :=
  match budget with
  | O => mk_run (inr (StepBudgetExceededError t)) (mk_session reg t) n
  | S budget' =>
      match complete (describe reg) t with
      | None => mk_run (inr BackendUnavailableError) (mk_session reg t) (S n)
      | Some raw =>
          match parse raw with
          | Malformed =>
              mk_run (inr MalformedModelOutputError) (mk_session reg t) (S n)
          | FinalAnswer text =>
              mk_run (inl text)
                (mk_session reg (t ++ [ModelUtterance text None])%list) (S n)
          | ToolCallRequest text call =>
              let res := dispatch reg (toolName call) (callArguments call) in
              steps budget' reg
                (t ++ [ModelUtterance text (Some call);
                       ToolCallEntry call;
                       ToolResult (toolName call) res])%list
                (S n)
          end
      end
  end.

(** Modelled from the spec: [run(query, maxSteps)] (section 4.2). *)
Definition run (reg : Registry) (query : string) (maxSteps : nat) : Run :=
  steps maxSteps reg [UserMessage query] 0.

(** The backend asks for a tool at every turn. *)
Definition always_calls_tool : Prop :=
  forall specs t, exists raw text call,
    complete specs t = Some raw /\ parse raw = ToolCallRequest text call.

End Loop.

(** Modelled from the spec: the [ToolSpec] of a tool of the scripts (section
    3): its name, the description shown to the model ([docs]), its declared
    parameters, all required, and the function behind it ([implement]).  The
    framework code that builds it is missing. *)
Definition spec_of (docs : tool -> string)
    (implement : tool -> arguments -> value + string) (t : tool) : ToolSpec :=
  mk_spec (tool_name t) (docs t)
    (map (fun p => (fst p, snd p, true)) (tool_inputs t))
    (implement t).

Definition registry_of (docs : tool -> string)
    (implement : tool -> arguments -> value + string) (a : agent) : Registry :=
  map (spec_of docs implement) (tools a).

(** Modelled from the spec: [agent.run(query)], the loop of section 4.2 over
    the agent's registry with the step budget the script configured;
    [default_steps] is the framework's own budget when the script gives
    none. *)
Definition agent_run (complete : list ToolSpec -> Transcript -> option string)
    (parse : string -> parsed) (docs : tool -> string)
    (implement : tool -> arguments -> value + string)
    (default_steps : nat) (a : agent) (query : string) : Run :=
  run complete parse (registry_of docs implement a) query
    (match max_steps a with Some n => n | None => default_steps end).

End ReasoningLoop.

(* ------------------------------------------------------------------ *)
(** ** Concrete collaborators for the examples *)

Module Sample.

(** A float written as decimal digits and exponent: [0.92] is [(92, -2)]. *)
Definition dec : Type := (Z * Z)%type.

(** An expression that raises a bare [BaseException]: the class is reached
    from a tuple through [object.__subclasses__()], and a generator's
    [throw] raises an instance of it.  No builtin name is used. *)
Definition escape_expression : string :=
  "(_ for _ in ()).throw([c for c in ().__class__.__base__.__subclasses__() if c.__name__ == 'BaseException'][0]())".

(** An evaluator on five expressions; every other text is a syntax error.
    The key of the [KeyError] of [{}[10**5000]] has 5001 digits. *)
Definition py_eval (expression : string) (globals : pydict) : outcome Z :=
  if String.eqb expression "100 * 2" then Returns 200
  else if String.eqb expression "{}[10**5000]"
  then Raises (mk_exc KeyError "" None)
  else if String.eqb expression "1/0"
  then Raises (mk_exc ZeroDivisionError "division by zero" None)
  else if String.eqb expression "abs(1)"
  then Raises (mk_exc NameError "name 'abs' is not defined" None)
  else if String.eqb expression escape_expression
  then Raises (mk_exc BaseException "" None)
  else Raises (mk_exc SyntaxError "invalid syntax" None).

Definition py_float (v : Z) : outcome dec := Returns (v, 0).

(** [str(e)] for the exceptions of this evaluator.  Its only [KeyError] is
    the one with the 5001-digit key, whose text cannot be formed: converting
    an integer of more than 4300 digits to text raises [ValueError]. *)
Definition py_str (e : pyexc) : outcome string :=
  match exc_cls e with
  | KeyError =>
      Raises (mk_exc ValueError
                "Exceeds the limit (4300 digits) for integer string conversion"
                (Some e))
  | _ => Returns (exc_str e)
  end.

Definition float_of_int (z : Z) : option dec := Some (z, 0).
Definition float_of_str (s : string) : option dec := None.

Definition usd_rates : json dec :=
  JDict [("date", JStr "2024-03-06");
         ("usd", JDict [("eur", JFloat (92, -2)); ("gbp", JFloat (79, -2));
                        ("jpy", JInt 150)])].

(** A network whose first endpoint times out and whose second answers for
    [usd]; no other address is reachable. *)
Definition http_get (req : request) : requests_error + response dec :=
  if String.eqb (req_url req)
       "https://cdn.jsdelivr.net/npm/@fawazahmed0/currency-api@latest/v1/currencies/usd.json"
  then inl ReadTimeout
  else if String.eqb (req_url req)
            "https://latest.currency-api.pages.dev/v1/currencies/usd.json"
  then inr (mk_response 200 (Some usd_rates))
  else inl ConnectionFailed.

(** A linear congruential generator. *)
Definition draw (n : Z) (g : Z) : Z * Z :=
  let g' := (g * 1103515245 + 12345) mod 2147483648 in (g', g').

(** An agent that answers every question but the empty one. *)
Definition agent_run (n : nat) (question : string) : run_result :=
  if String.eqb question "" then RunError "empty question"
  else Answer ("About " ++ question).

(** A backend that asks for the calculator at every turn. *)
Definition complete (specs : list ReasoningLoop.ToolSpec)
    (t : ReasoningLoop.Transcript) : option string :=
  Some "calculate(expression='1 + 1')".

Definition parse (raw : string) : ReasoningLoop.parsed :=
  ReasoningLoop.ToolCallRequest raw
    (ReasoningLoop.mk_call "calculate" [("expression", ReasoningLoop.PStr "1 + 1")]).

Definition docs (t : tool) : string := tool_name t.

Definition implement (t : tool) (args : ReasoningLoop.arguments)
  : ReasoningLoop.value + string :=
  inl (ReasoningLoop.PInt 2).

End Sample.

(* ------------------------------------------------------------------ *)
(** ** [web_search] (agent1-search.py) *)

(** [sep.join(parts)] *)
Fixpoint str_join (sep : string) (parts : list string) : string :=
  match parts with
  | [] => ""
  | [p] => p
  | p :: rest => p ++ sep ++ str_join sep rest
  end.

(** One search result: a dictionary from field names to texts. *)
Definition search_result : Type := list (string * string).

(** [r[key]], with the [KeyError] of a missing key. *)
Definition getitem (key : string) (r : search_result) : outcome string :=
  match dict_get key r with
  | Some v => Returns v
  | None => Raises (mk_exc KeyError ("'" ++ key ++ "'") None)
  end.

(** [[r["body"] for r in results]] *)
Fixpoint bodies (results : list search_result) : outcome (list string) :=
  match results with
  | [] => Returns []
  | r :: rest =>
      b <- getitem "body" r ;;
      bs <- bodies rest ;;
      Returns (b :: bs)
  end.

Section WebSearch.

(** [DDGS().text(query, max_results=n)]: the search service. *)
Variable ddgs_text : string -> nat -> outcome (list search_result).

Definition web_search (query : string) : outcome string :=
  results <- ddgs_text query 3%nat ;;
  bs <- bodies results ;;
  Returns (str_join " " bs).

End WebSearch.

(** The text a result holds under ["body"], for a result that has one. *)
Definition body_of (r : search_result) : string :=
  match dict_get "body" r with Some v => v | None => "" end.

Definition has_body (r : search_result) : bool :=
  match dict_get "body" r with Some _ => true | None => false end.

Definition total_length (parts : list string) : nat :=
  fold_right (fun p n => (String.length p + n)%nat) 0%nat parts.

(* ------------------------------------------------------------------ *)
(** ** [get_weather] as text (smolaagents.py) *)

(** [str(n)] for an [int]. *)
Definition str_of_int (z : Z) : string := NilZero.string_of_int (Z.to_int z).

(** The f-string [get_weather] returns; the degree sign is code point 176. *)
Definition weather_sentence (r : weather_report) : string :=
  "The weather in " ++ report_city r ++ " is " ++ report_condition r
    ++ " with a temperature of " ++ str_of_int (report_temp r)
    ++ String (PyStr.chr 176) "C".

(** [get_weather], returning the sentence itself. *)
Definition get_weather_text {rng : Type} (draw : Z -> rng -> Z * rng)
    (city : string) (g : rng) : outcome (string * rng) :=
  rg <- get_weather draw city g ;;
  Returns (weather_sentence (fst rg), snd rg).

(* ------------------------------------------------------------------ *)
(** ** The currency demo (curr_conv_agent_no_func.py, [__main__]) *)

Module CurrencyDemo.

Inductive event : Type :=
| PrintBanner
| PrintExample (number : nat) (title : string)
| PrintQuery (query : string)
| CallRun (query : string)           (* [agent.run(query)] *)
| PrintResult (result : string)
| PrintError (message : string).

Definition query1 : string := "What is the exchange rate from USD to EUR?".
Definition query2 : string := "Convert 100 USD to EUR".
Definition query3 : string :=
  "Convert 1000 USD to EUR, GBP, and JPY. Which gives the highest value?".

(** [agent = create_agent()] *)
Definition demo_agent : agent := create_agent default_model_id default_api_base.

Section Main.

(** The [n]-th call of [agent.run]. *)
Variable agent_run : nat -> string -> run_result.

(** One example: the query is printed, then run inside its own
    [try ... except Exception]. *)
Definition example (n : nat) (query : string) : list event :=
  match agent_run n query with
  | Answer result => [PrintQuery query; CallRun query; PrintResult result]
  | RunError message => [PrintQuery query; CallRun query; PrintError message]
  end.

Definition main : list event * exit_status :=
  ((PrintBanner
      :: PrintExample 1 "Get current exchange rate" :: example 0 query1
      ++ PrintExample 2 "Convert a specific amount" :: example 1 query2
      ++ PrintExample 3 "Convert to multiple currencies" :: example 2 query3)%list,
   Finished).

End Main.

(** The queries handed to [agent.run]. *)
Fixpoint run_queries (evs : list event) : list string :=
  match evs with
  | [] => []
  | CallRun q :: rest => q :: run_queries rest
  | _ :: rest => run_queries rest
  end.

(** The results and error messages printed. *)
Fixpoint printed (evs : list event) : list run_result :=
  match evs with
  | [] => []
  | PrintResult r :: rest => Answer r :: printed rest
  | PrintError m :: rest => RunError m :: printed rest
  | _ :: rest => printed rest
  end.

End CurrencyDemo.

(* ------------------------------------------------------------------ *)
(** ** Observations on strings and event traces *)

Definition first_char (s : string) : option ascii :=
  match s with EmptyString => None | String c _ => Some c end.

Fixpoint last_char (s : string) : option ascii :=
  match s with
  | EmptyString => None
  | String c EmptyString => Some c
  | String _ s' => last_char s'
  end.

(** The character is absent or is not white space. *)
Definition not_space (o : option ascii) : bool :=
  match o with None => true | Some c => negb (PyStr.is_space c) end.

(** The sixteen spellings of [exit] in upper and lower case. *)
Definition exit_spelling (s : string) : bool :=
  match s with
  | String c1 (String c2 (String c3 (String c4 EmptyString))) =>
      (Ascii.eqb c1 "e" || Ascii.eqb c1 "E")
      && (Ascii.eqb c2 "x" || Ascii.eqb c2 "X")
      && (Ascii.eqb c3 "i" || Ascii.eqb c3 "I")
      && (Ascii.eqb c4 "t" || Ascii.eqb c4 "T")
  | _ => false
  end.

Arguments to_float {F} float_of_int float_of_str v.
Arguments raise_for_status {F} r.

(** What it means for an endpoint to give the rate [f] of [target] against
    [base], said of the response alone: the request is answered, the status
    is no error status, the body is a JSON object whose entry for [base] is
    an object, and the entry of that object for [target] is a value of which
    [f] is the float. *)
Definition offers_rate {F : Type} (float_of_int : Z -> option F)
    (float_of_str : string -> option F)
    (http_get : request -> requests_error + response F)
    (base target : string) (req : request) (f : F) : Prop :=
  exists resp items rates v,
    http_get req = inr resp
    /\ (status_code resp < 400 \/ 600 <= status_code resp)
    /\ json_body resp = Some (JDict items)
    /\ dict_get base items = Some (JDict rates)
    /\ dict_get target rates = Some v
    /\ to_float float_of_int float_of_str v = inr f.

(** The endpoint gives no rate at all. *)
Definition offers_nothing {F : Type} (float_of_int : Z -> option F)
    (float_of_str : string -> option F)
    (http_get : request -> requests_error + response F)
    (base target : string) (req : request) : Prop :=
  forall f, ~ offers_rate float_of_int float_of_str http_get base target req f.

(** More sample collaborators. *)
Module Fixture.

(** A search that finds two pages for [rust], one page without a body for
    [broken], nothing for [nothing], and otherwise fails. *)
Definition ddgs_text (query : string) (max_results : nat)
  : outcome (list search_result) :=
  if String.eqb query "rust"
  then Returns [ [("title", "Rust"); ("href", "https://rust-lang.org");
                  ("body", "A language")];
                 [("title", "Book"); ("body", "empowering everyone")] ]
  else if String.eqb query "broken"
  then Returns [ [("title", "A"); ("body", "first")]; [("title", "B")] ]
  else if String.eqb query "nothing" then Returns []
  else Raises (mk_exc (OtherException "RatelimitException") "202 Ratelimit" None).

(** A network whose first endpoint answers 200 with the rates of [usd]. *)
Definition http_get (req : request) : requests_error + response Sample.dec :=
  if String.eqb (req_url req)
       "https://cdn.jsdelivr.net/npm/@fawazahmed0/currency-api@latest/v1/currencies/usd.json"
  then inr (mk_response 200 (Some Sample.usd_rates))
  else inl ConnectionFailed.

End Fixture.

(* ================================================================== *)
(** * Properties *)

(* ------------------------------------------------------------------ *)
(** ** Strings *)

Lemma lower_char_idempotent (c : ascii) :
  PyStr.lower_char (PyStr.lower_char c) = PyStr.lower_char c.
Proof.
  destruct c as [[] [] [] [] [] [] [] []]; vm_compute; reflexivity.
Qed.

Lemma lower_idempotent (s : string) : PyStr.lower (PyStr.lower s) = PyStr.lower s.
Proof.
  induction s as [|c s IH]; simpl.
  - reflexivity.
  - now rewrite lower_char_idempotent, IH.
Qed.

Lemma lower_length (s : string) : String.length (PyStr.lower s) = String.length s.
Proof.
  induction s as [|c s IH]; simpl; congruence.
Qed.

Lemma truthy_nonempty (s : string) : PyStr.truthy s = true <-> s <> "".
Proof.
  destruct s; simpl; split; congruence.
Qed.

Example lower_mixed_case : PyStr.lower "UsD" = "usd" /\ PyStr.lower "usd" = "usd".
Proof. split; reflexivity. Qed.

Example strip_blanks : PyStr.strip "  What now?  " = "What now?" /\ PyStr.strip "   " = "".
Proof. split; reflexivity. Qed.

(* ------------------------------------------------------------------ *)
(** ** [calculate] *)

Section CalculateFacts.

Variables pyobj pyfloat : Type.
Variable py_eval : string -> pydict -> outcome pyobj.
Variable py_float : pyobj -> outcome pyfloat.
Variable py_str : pyexc -> outcome string.

Lemma calculate_body_returns (expression : string) (f : pyfloat) :
  calculate_body py_eval py_float expression = Returns f <->
  exists v, py_eval expression calculate_globals = Returns v /\ py_float v = Returns f.
Proof.
  unfold calculate_body, bind.
  destruct (py_eval expression calculate_globals) as [v|e].
  - split.
    + intros H. now exists v.
    + intros (v' & Hv & Hf). congruence.
  - split; [discriminate|]. intros (v' & Hv & _). discriminate.
Qed.

Lemma calculate_returns (expression : string) (f : pyfloat) :
  calculate_body py_eval py_float expression = Returns f ->
  calculate py_eval py_float py_str expression = Returns f.
Proof.
  intros Hb. unfold calculate, try_except_Exception. now rewrite Hb.
Qed.

Lemma calculate_wraps (expression : string) (cause : pyexc) (text : string) :
  calculate_body py_eval py_float expression = Raises cause ->
  is_Exception (exc_cls cause) = true ->
  py_str cause = Returns text ->
  calculate py_eval py_float py_str expression
  = Raises (mk_exc RuntimeError ("Calculation error: " ++ text) (Some cause)).
Proof.
  intros Hb Hc Hs. unfold calculate, try_except_Exception, calculate_handler, bind.
  now rewrite Hb, Hc, Hs.
Qed.

Lemma calculate_handler_raises (expression : string) (cause e : pyexc) :
  calculate_body py_eval py_float expression = Raises cause ->
  is_Exception (exc_cls cause) = true ->
  py_str cause = Raises e ->
  calculate py_eval py_float py_str expression = Raises e.
Proof.
  intros Hb Hc Hs. unfold calculate, try_except_Exception, calculate_handler, bind.
  now rewrite Hb, Hc, Hs.
Qed.

Lemma calculate_passes (expression : string) (e : pyexc) :
  calculate_body py_eval py_float expression = Raises e ->
  is_Exception (exc_cls e) = false ->
  calculate py_eval py_float py_str expression = Raises e.
Proof.
  intros Hb Hc. unfold calculate, try_except_Exception. now rewrite Hb, Hc.
Qed.

(** The four ways a call ends. *)
Lemma calculate_cases (expression : string) :
  (exists f, calculate_body py_eval py_float expression = Returns f
             /\ calculate py_eval py_float py_str expression = Returns f)
  \/ (exists cause text,
         calculate_body py_eval py_float expression = Raises cause
         /\ is_Exception (exc_cls cause) = true
         /\ py_str cause = Returns text
         /\ calculate py_eval py_float py_str expression
            = Raises (mk_exc RuntimeError ("Calculation error: " ++ text) (Some cause)))
  \/ (exists cause e,
         calculate_body py_eval py_float expression = Raises cause
         /\ is_Exception (exc_cls cause) = true
         /\ py_str cause = Raises e
         /\ calculate py_eval py_float py_str expression = Raises e)
  \/ (exists e,
         calculate_body py_eval py_float expression = Raises e
         /\ is_Exception (exc_cls e) = false
         /\ calculate py_eval py_float py_str expression = Raises e).
Proof.
  destruct (calculate_body py_eval py_float expression) as [f|cause] eqn:Hb.
  - left. exists f. auto using calculate_returns.
  - destruct (is_Exception (exc_cls cause)) eqn:Hc.
    + destruct (py_str cause) as [text|e] eqn:Hs.
      * right; left. exists cause, text. auto using calculate_wraps.
      * right; right; left. exists cause, e.
        eauto using calculate_handler_raises.
    + right; right; right. exists cause. auto using calculate_passes.
Qed.

End CalculateFacts.

(** C2, as amended.  For every evaluator, conversion and expression,
    [calculate] either returns the float the evaluated result converts to,
    or, when evaluation or conversion raised an [Exception] whose text the
    handler can form, raises a [RuntimeError] whose message is
    ["Calculation error: "] followed by that text and whose context is the
    cause.  An exception outside the [Exception] hierarchy raised by
    evaluation or conversion leaves the function unchanged.  The evaluator
    is called with the globals [{"__builtins__": {}}].  Whenever the handler
    can form the text of its cause, every [Exception] leaving [calculate] is
    a [RuntimeError]; the one other way a call ends is with an exception
    raised while that text was being formed. *)
Theorem calculate_outcome :
  forall (pyobj pyfloat : Type) (py_eval : string -> pydict -> outcome pyobj)
         (py_float : pyobj -> outcome pyfloat) (py_str : pyexc -> outcome string)
         (expression : string),
    ((exists v f, py_eval expression (Dict [("__builtins__", Dict [])]) = Returns v
                  /\ py_float v = Returns f
                  /\ calculate py_eval py_float py_str expression = Returns f)
     \/ (exists cause text,
            calculate_body py_eval py_float expression = Raises cause
            /\ is_Exception (exc_cls cause) = true
            /\ py_str cause = Returns text
            /\ calculate py_eval py_float py_str expression
               = Raises (mk_exc RuntimeError ("Calculation error: " ++ text)
                           (Some cause)))
     \/ (exists e,
            calculate_body py_eval py_float expression = Raises e
            /\ is_Exception (exc_cls e) = false
            /\ calculate py_eval py_float py_str expression = Raises e)
     \/ (exists cause e,
            calculate_body py_eval py_float expression = Raises cause
            /\ is_Exception (exc_cls cause) = true
            /\ py_str cause = Raises e
            /\ calculate py_eval py_float py_str expression = Raises e))
    /\ (forall e,
          calculate py_eval py_float py_str expression = Raises e ->
          is_Exception (exc_cls e) = true ->
          exc_cls e = RuntimeError
          \/ exists cause,
               calculate_body py_eval py_float expression = Raises cause
               /\ py_str cause = Raises e)
    /\ ((forall cause, exists text, py_str cause = Returns text) ->
        forall e,
          calculate py_eval py_float py_str expression = Raises e ->
          is_Exception (exc_cls e) = true ->
          exc_cls e = RuntimeError).
Proof.
  intros pyobj pyfloat py_eval py_float py_str expression.
  pose proof (calculate_cases pyobj pyfloat py_eval py_float py_str expression)
    as Hcases.
  assert (Hraise : forall e,
             calculate py_eval py_float py_str expression = Raises e ->
             is_Exception (exc_cls e) = true ->
             exc_cls e = RuntimeError
             \/ exists cause,
                  calculate_body py_eval py_float expression = Raises cause
                  /\ py_str cause = Raises e).
  { intros e He Hcls.
    destruct Hcases as [(f & _ & Hc) | [(cause & text & _ & _ & _ & Hc)
                       | [(cause & e' & Hb & _ & Hs & Hc) | (e' & _ & Hn & Hc)]]];
      rewrite Hc in He.
    - discriminate.
    - injection He as <-. now left.
    - injection He as <-. right. now exists cause.
    - injection He as <-. congruence. }
  split; [|split; [exact Hraise|]].
  - destruct Hcases as [(f & Hb & Hc) | [(cause & text & H)
                       | [(cause & e & H) | (e & H)]]].
    + left. apply calculate_body_returns in Hb as (v & Hv & Hf).
      exists v, f. auto.
    + right; left. now exists cause, text.
    + right; right; right. now exists cause, e.
    + right; right; left. now exists e.
  - intros Htext e He Hcls.
    destruct (Hraise e He Hcls) as [H | (cause & _ & Hs)]; [exact H|].
    destruct (Htext cause) as [text Ht]. congruence.
Qed.

(** C2, as stated, fails: on an expression that raises a bare
    [BaseException], [calculate] neither returns a float nor raises a
    [RuntimeError]; the [BaseException] escapes. *)
Lemma calculate_lets_BaseException_escape :
  calculate Sample.py_eval Sample.py_float Sample.py_str Sample.escape_expression
  = Raises (mk_exc BaseException "" None)
  /\ is_RuntimeError BaseException = false.
Proof. split; vm_compute; reflexivity. Qed.

Example calculate_product :
  calculate Sample.py_eval Sample.py_float Sample.py_str "100 * 2" = Returns (200, 0).
Proof. vm_compute; reflexivity. Qed.

Example calculate_division_by_zero :
  calculate Sample.py_eval Sample.py_float Sample.py_str "1/0"
  = Raises (mk_exc RuntimeError "Calculation error: division by zero"
              (Some (mk_exc ZeroDivisionError "division by zero" None))).
Proof. vm_compute; reflexivity. Qed.

Example calculate_without_builtins :
  calculate Sample.py_eval Sample.py_float Sample.py_str "abs(1)"
  = Raises (mk_exc RuntimeError "Calculation error: name 'abs' is not defined"
              (Some (mk_exc NameError "name 'abs' is not defined" None))).
Proof. vm_compute; reflexivity. Qed.

(** The text of the [KeyError] of [{}[10**5000]] cannot be formed: the
    [ValueError] of the conversion leaves [calculate], with the [KeyError]
    as its context. *)
Example calculate_unprintable_cause :
  calculate Sample.py_eval Sample.py_float Sample.py_str "{}[10**5000]"
  = Raises (mk_exc ValueError
              "Exceeds the limit (4300 digits) for integer string conversion"
              (Some (mk_exc KeyError "" None))).
Proof. vm_compute; reflexivity. Qed.

(* ------------------------------------------------------------------ *)
(** ** [fetch_live_rate] *)

Section FetchFacts.

Variable F : Type.
Variable float_of_int : Z -> option F.
Variable float_of_str : string -> option F.
Variable http_get : request -> requests_error + response F.

Local Abbreviation attempt_at := (try_endpoint float_of_int float_of_str http_get).
Local Abbreviation yielding := (yields float_of_int float_of_str http_get).
Local Abbreviation visit := (for_urls float_of_int float_of_str http_get).
Local Abbreviation fetch := (fetch_live_rate float_of_int float_of_str http_get).

Lemma yields_rate (base target : string) (req : request) :
  yielding base target req = true <-> exists f, attempt_at base target req = Rate f.
Proof.
  unfold yields.
  destruct (attempt_at base target req); split;
    try discriminate; eauto; intros [f' H]; discriminate.
Qed.

(** A request the network fails is caught, and the loop body gives no rate. *)
Lemma request_fault_caught (base target : string) (req : request) (e : requests_error) :
  http_get req = inl e ->
  attempt_at base target req = Caught (RequestFault e)
  /\ yielding base target req = false.
Proof.
  intros H. unfold yields, try_endpoint.
  rewrite H. split; reflexivity.
Qed.

(** The loop visits the endpoints in order and stops at the first that
    gives a rate. *)
Lemma for_urls_log (base target : string) (reqs : list request) :
  fst (visit base target reqs)
  = map (fun req => (req, attempt_at base target req))
      (up_to_first (yielding base target) reqs).
Proof.
  induction reqs as [|req rest IH]; simpl.
  - reflexivity.
  - unfold yields at 1.
    destruct (attempt_at base target req) eqn:Hreq; simpl.
    + now rewrite Hreq.
    + destruct (visit base target rest).
      simpl in *. now rewrite Hreq, <- IH.
    + destruct (visit base target rest).
      simpl in *. now rewrite Hreq, <- IH.
Qed.

(** The loop returns the rate of the first endpoint that gives one. *)
Lemma for_urls_rate (base target : string) (reqs : list request) :
  match find (yielding base target) reqs with
  | Some req => exists f, attempt_at base target req = Rate f
                          /\ snd (visit base target reqs) = Some f
  | None => snd (visit base target reqs) = None
  end.
Proof.
  induction reqs as [|req rest IH]; simpl.
  - reflexivity.
  - unfold yields at 1.
    destruct (attempt_at base target req) eqn:Hreq.
    + exists f. split; [exact Hreq | reflexivity].
    + destruct (visit base target rest). exact IH.
    + destruct (visit base target rest). exact IH.
Qed.

Lemma fetch_live_rate_log (from_currency to_currency : string) :
  fst (fetch from_currency to_currency)
  = fst (visit (PyStr.lower from_currency) (PyStr.lower to_currency)
           (urls (PyStr.lower from_currency))).
Proof.
  unfold fetch_live_rate.
  destruct (visit _ _ _) as [log [f|]]; reflexivity.
Qed.

Lemma fetch_live_rate_result (from_currency to_currency : string) :
  snd (fetch from_currency to_currency)
  = match snd (visit (PyStr.lower from_currency) (PyStr.lower to_currency)
                 (urls (PyStr.lower from_currency))) with
    | Some f => Returns f
    | None => Raises (mk_exc RuntimeError
                        (failed_message from_currency to_currency) None)
    end.
Proof.
  unfold fetch_live_rate.
  destruct (visit _ _ _) as [log [f|]]; reflexivity.
Qed.

Lemma find_existsb {A : Type} (p : A -> bool) (l : list A) :
  existsb p l = match find p l with Some _ => true | None => false end.
Proof.
  induction l as [|x l IH]; simpl; [reflexivity|].
  destruct (p x); simpl; [reflexivity | exact IH].
Qed.

(** The call raises exactly when no endpoint gives a rate. *)
Lemma fetch_live_rate_raises_iff (from_currency to_currency : string) :
  (exists e, snd (fetch from_currency to_currency) = Raises e)
  <-> existsb (yielding (PyStr.lower from_currency) (PyStr.lower to_currency))
        (urls (PyStr.lower from_currency)) = false.
Proof.
  rewrite fetch_live_rate_result, find_existsb.
  pose proof (for_urls_rate (PyStr.lower from_currency) (PyStr.lower to_currency)
                (urls (PyStr.lower from_currency))) as Hrate.
  destruct (find _ _) as [req|].
  - destruct Hrate as (f & _ & ->). split; [intros [e He]|]; discriminate.
  - rewrite Hrate. split; eauto.
Qed.

End FetchFacts.

(** The loop body returns [f] exactly when the endpoint offers [f]. *)
Lemma try_endpoint_offers {F : Type} (float_of_int : Z -> option F)
    (float_of_str : string -> option F)
    (http_get : request -> requests_error + response F)
    (base target : string) (req : request) (f : F) :
  try_endpoint float_of_int float_of_str http_get base target req = Rate f
  <-> offers_rate float_of_int float_of_str http_get base target req f.
Proof.
  unfold offers_rate, try_endpoint. split.
  - destruct (http_get req) as [e|resp] eqn:Hget; [discriminate|].
    unfold raise_for_status.
    destruct (Z.leb_spec 400 (status_code resp)) as [Hlo|Hlo];
      destruct (Z.ltb_spec (status_code resp) 600) as [Hhi|Hhi];
      simpl; try discriminate;
      (destruct (json_body resp) as [data|] eqn:Hbody; [|discriminate];
       destruct data as [ | | | | | |items]; simpl; try discriminate;
       destruct (dict_get base items) as [rates|] eqn:Hbase; simpl;
         [|discriminate];
       destruct rates as [ | | | |s|l|rates]; simpl; try discriminate;
         [ destruct (PyStr.contains target s); discriminate
         | destruct (existsb (json_is_str target) l); discriminate
         | ];
       destruct (dict_get target rates) as [v|] eqn:Htarget; [|discriminate];
       destruct (to_float float_of_int float_of_str v) as [e|f'] eqn:Hfloat;
         [discriminate|];
       intros H; injection H as <-;
       exists resp, items, rates, v; repeat split; auto; lia).
  - intros (resp & items & rates & v & -> & Hstatus & -> & Hbase & Htarget & Hfloat).
    unfold raise_for_status.
    assert (Hok : (400 <=? status_code resp) && (status_code resp <? 600) = false).
    { apply andb_false_iff.
      destruct Hstatus; [left; apply Z.leb_gt | right; apply Z.ltb_ge]; lia. }
    rewrite Hok. simpl. rewrite Hbase. simpl. rewrite Htarget, Hfloat. reflexivity.
Qed.

Lemma yields_offers {F : Type} (float_of_int : Z -> option F)
    (float_of_str : string -> option F)
    (http_get : request -> requests_error + response F)
    (base target : string) (req : request) :
  yields float_of_int float_of_str http_get base target req = false
  <-> offers_nothing float_of_int float_of_str http_get base target req.
Proof.
  unfold offers_nothing, yields. split.
  - intros H f Hoff. apply try_endpoint_offers in Hoff. now rewrite Hoff in H.
  - intros H.
    destruct (try_endpoint float_of_int float_of_str http_get base target req)
      as [f| |e] eqn:Htry; try reflexivity.
    exfalso. apply (H f). now apply try_endpoint_offers.
Qed.

(** C3.  For every pair of currency-code strings and every behaviour of the
    two endpoints, [fetch_live_rate] returns [f] exactly when the first
    endpoint gives [f] as the rate of the target currency, or the first
    gives no rate and the second gives [f]: the value returned is the float
    of the entry for the lower-cased target code in the object the response
    holds for the lower-cased source code.  When neither endpoint gives a
    rate, and only then, it raises a [RuntimeError] whose message holds both
    codes as they were given.  It ends in no other way. *)
Theorem fetch_live_rate_outcome :
  forall (F : Type) (float_of_int : Z -> option F) (float_of_str : string -> option F)
         (http_get : request -> requests_error + response F)
         (from_currency to_currency : string),
    let base := PyStr.lower from_currency in
    let target := PyStr.lower to_currency in
    let primary :=
      mk_request
        ("https://cdn.jsdelivr.net/npm/@fawazahmed0/currency-api@latest/v1/currencies/"
           ++ base ++ ".json") 5 in
    let fallback :=
      mk_request
        ("https://latest.currency-api.pages.dev/v1/currencies/" ++ base ++ ".json") 5 in
    let offers := offers_rate float_of_int float_of_str http_get base target in
    let nothing := offers_nothing float_of_int float_of_str http_get base target in
    let failure :=
      mk_exc RuntimeError
        ("Failed to fetch exchange rate from " ++ from_currency
           ++ " to " ++ to_currency) None in
    let out := snd (fetch_live_rate float_of_int float_of_str http_get
                      from_currency to_currency) in
    (forall f, out = Returns f
               <-> offers primary f \/ (nothing primary /\ offers fallback f))
    /\ (out = Raises failure <-> nothing primary /\ nothing fallback)
    /\ ((exists f, out = Returns f) \/ out = Raises failure).
Proof.
  intros F foi fos http_get from_currency to_currency base target primary fallback
    offers nothing failure out.
  assert (Hout : out = match try_endpoint foi fos http_get base target primary with
                       | Rate f => Returns f
                       | _ => match try_endpoint foi fos http_get base target fallback with
                              | Rate f => Returns f
                              | _ => Raises failure
                              end
                       end).
  { subst out. rewrite fetch_live_rate_result. fold base target.
    unfold urls. fold primary fallback. simpl.
    destruct (try_endpoint foi fos http_get base target primary);
      try reflexivity;
      destruct (try_endpoint foi fos http_get base target fallback); reflexivity. }
  assert (Hp : forall f, try_endpoint foi fos http_get base target primary = Rate f
                         <-> offers primary f)
    by (intros f; apply try_endpoint_offers).
  assert (Hf : forall f, try_endpoint foi fos http_get base target fallback = Rate f
                         <-> offers fallback f)
    by (intros f; apply try_endpoint_offers).
  assert (Hpn : yields foi fos http_get base target primary = false <-> nothing primary)
    by apply yields_offers.
  assert (Hfn : yields foi fos http_get base target fallback = false <-> nothing fallback)
    by apply yields_offers.
  unfold yields in Hpn, Hfn.
  destruct (try_endpoint foi fos http_get base target primary) as [p| |ep] eqn:Hprim.
  1: { (* the first endpoint gives a rate *)
    assert (Hnot : ~ nothing primary).
    { intros Hn. apply (Hn p). now apply Hp. }
    split; [|split].
    - intros f. rewrite Hout. split.
      + intros H. injection H as <-. left. now apply Hp.
      + intros [Ho | [Hn _]]; [|contradiction].
        apply Hp in Ho. congruence.
    - rewrite Hout. split; [discriminate | intros [Hn _]; contradiction].
    - left. now exists p. }
  (* the first endpoint gives none: the second decides *)
  all: assert (Hn : nothing primary) by now apply Hpn.
  all: destruct (try_endpoint foi fos http_get base target fallback)
         as [q| |eq] eqn:Hfall.
  1, 4: assert (Hnot : ~ nothing fallback)
          by (intros Hn'; apply (Hn' q); now apply Hf);
        split; [|split];
    [ intros f; rewrite Hout; split;
      [ intros H; injection H as <-; right; split; [exact Hn | now apply Hf]
      | intros [Ho | [_ Ho]]; [exfalso; exact (Hn f Ho) | apply Hf in Ho; congruence] ]
    | rewrite Hout; split; [discriminate | intros [_ Hn']; contradiction]
    | left; now exists q ].
  all: assert (Hn' : nothing fallback) by now apply Hfn.
  all: split; [|split];
    [ intros f; rewrite Hout; split;
      [ discriminate
      | intros [Ho | [_ Ho]]; [exfalso; exact (Hn f Ho) | exfalso; exact (Hn' f Ho)] ]
    | rewrite Hout; split; auto
    | right; exact Hout ].
Qed.

(** C4.  Every request [fetch_live_rate] issues carries the timeout it
    passes to [requests.get], 5 seconds.  A request that times out is caught
    inside the loop and yields no rate, so the loop goes on: the requests
    issued are the endpoints in order, up to and including the first that
    yields a rate.  The call raises only when no endpoint yields a rate, and
    what it raises is then the [RuntimeError], never the timeout. *)
Theorem fetch_live_rate_timeout_recoverable :
  forall (F : Type) (float_of_int : Z -> option F) (float_of_str : string -> option F)
         (http_get : request -> requests_error + response F)
         (from_currency to_currency : string),
    let base := PyStr.lower from_currency in
    let target := PyStr.lower to_currency in
    let yielding := yields float_of_int float_of_str http_get base target in
    let run := fetch_live_rate float_of_int float_of_str http_get
                 from_currency to_currency in
    Forall (fun req => req_timeout req = 5) (requests_of (fst run))
    /\ (forall req e, http_get req = inl e -> is_timeout e = true ->
          try_endpoint float_of_int float_of_str http_get base target req
          = Caught (RequestFault e)
          /\ yielding req = false)
    /\ requests_of (fst run) = up_to_first yielding (urls base)
    /\ ((exists e, snd run = Raises e) <-> forallb (fun req => negb (yielding req)) (urls base) = true)
    /\ (forall e, snd run = Raises e ->
          e = mk_exc RuntimeError (failed_message from_currency to_currency) None).
Proof.
  intros F foi fos http_get from_currency to_currency base target yielding run.
  assert (Hlog : requests_of (fst run) = up_to_first yielding (urls base)).
  { unfold run, requests_of. rewrite fetch_live_rate_log, for_urls_log.
    rewrite map_map. simpl. apply map_id. }
  split; [|split; [|split; [exact Hlog|split]]].
  - rewrite Hlog. unfold urls. simpl.
    destruct (yielding _); [|destruct (yielding _)]; repeat constructor.
  - intros req e Hreq _. now apply request_fault_caught.
  - assert (Hneg : forallb (fun req => negb (yielding req)) (urls base)
                   = negb (existsb yielding (urls base))).
    { generalize (urls base) as l. induction l as [|x l IH]; simpl;
        [reflexivity|]. rewrite IH. now destruct (yielding x). }
    rewrite Hneg, negb_true_iff. apply fetch_live_rate_raises_iff.
  - intros e He.
    unfold run in He. rewrite fetch_live_rate_result in He.
    destruct (snd (for_urls foi fos http_get _ _ _)); [discriminate|].
    now injection He as <-.
Qed.

(** C8.  Two calls whose currency codes differ only in letter case (they
    lower-case to the same strings) issue the same requests with the same
    results, return the same rate when one returns, and fail together;
    on failure each message holds the codes as that call was given them.
    Lower-casing the codes beforehand is one such change of case. *)
Theorem fetch_live_rate_case_insensitive :
  forall (F : Type) (float_of_int : Z -> option F) (float_of_str : string -> option F)
         (http_get : request -> requests_error + response F)
         (from1 to1 from2 to2 : string),
    PyStr.lower from1 = PyStr.lower from2 ->
    PyStr.lower to1 = PyStr.lower to2 ->
    let run1 := fetch_live_rate float_of_int float_of_str http_get from1 to1 in
    let run2 := fetch_live_rate float_of_int float_of_str http_get from2 to2 in
    fst run1 = fst run2
    /\ requests_of (fst run1) = requests_of (fst run2)
    /\ (forall f, snd run1 = Returns f <-> snd run2 = Returns f)
    /\ (snd run1 = Raises (mk_exc RuntimeError (failed_message from1 to1) None)
        <-> snd run2 = Raises (mk_exc RuntimeError (failed_message from2 to2) None))
    /\ PyStr.lower (PyStr.lower from1) = PyStr.lower from1
    /\ PyStr.lower (PyStr.lower to1) = PyStr.lower to1.
Proof.
  intros F foi fos http_get from1 to1 from2 to2 Hfrom Hto run1 run2.
  assert (Hlog : fst run1 = fst run2).
  { unfold run1, run2. rewrite !fetch_live_rate_log. now rewrite Hfrom, Hto. }
  assert (Hres1 := fetch_live_rate_result F foi fos http_get from1 to1).
  assert (Hres2 := fetch_live_rate_result F foi fos http_get from2 to2).
  fold run1 in Hres1. fold run2 in Hres2.
  rewrite <- Hfrom, <- Hto in Hres2.
  split; [exact Hlog|]. split; [now rewrite Hlog|].
  rewrite Hres1, Hres2.
  destruct (snd (for_urls foi fos http_get _ _ _)) as [f|].
  - repeat split; try discriminate; auto using lower_idempotent.
  - repeat split; try discriminate; auto using lower_idempotent.
Qed.

(** C8 at a concrete input: [USD]/[EUR] against [usd]/[Eur], on a network
    whose first endpoint times out. *)
Lemma fetch_live_rate_case_insensitive_witness :
  let run1 := fetch_live_rate Sample.float_of_int Sample.float_of_str
                Sample.http_get "USD" "EUR" in
  let run2 := fetch_live_rate Sample.float_of_int Sample.float_of_str
                Sample.http_get "usd" "Eur" in
  fst run1 = fst run2
  /\ requests_of (fst run1) = requests_of (fst run2)
  /\ (forall f, snd run1 = Returns f <-> snd run2 = Returns f)
  /\ (snd run1 = Raises (mk_exc RuntimeError (failed_message "USD" "EUR") None)
      <-> snd run2 = Raises (mk_exc RuntimeError (failed_message "usd" "Eur") None))
  /\ PyStr.lower (PyStr.lower "USD") = PyStr.lower "USD"
  /\ PyStr.lower (PyStr.lower "EUR") = PyStr.lower "EUR".
Proof.
  apply (fetch_live_rate_case_insensitive Sample.dec Sample.float_of_int
           Sample.float_of_str Sample.http_get "USD" "EUR" "usd" "Eur");
    reflexivity.
Defined.

Example fetch_after_timeout :
  fetch_live_rate Sample.float_of_int Sample.float_of_str Sample.http_get "USD" "EUR"
  = ([ (mk_request
          "https://cdn.jsdelivr.net/npm/@fawazahmed0/currency-api@latest/v1/currencies/usd.json"
          5,
        Caught (RequestFault ReadTimeout));
       (mk_request "https://latest.currency-api.pages.dev/v1/currencies/usd.json" 5,
        Rate (92, -2)) ],
     Returns (92, -2)).
Proof. vm_compute; reflexivity. Qed.

Example fetch_unknown_target :
  snd (fetch_live_rate Sample.float_of_int Sample.float_of_str Sample.http_get
         "usd" "XYZ")
  = Raises (mk_exc RuntimeError "Failed to fetch exchange rate from usd to XYZ" None).
Proof. vm_compute; reflexivity. Qed.

Example fetch_unreachable :
  fetch_live_rate Sample.float_of_int Sample.float_of_str Sample.http_get "Eur" "USD"
  = ([ (mk_request
          "https://cdn.jsdelivr.net/npm/@fawazahmed0/currency-api@latest/v1/currencies/eur.json"
          5,
        Caught (RequestFault ConnectionFailed));
       (mk_request "https://latest.currency-api.pages.dev/v1/currencies/eur.json" 5,
        Caught (RequestFault ConnectionFailed)) ],
     Raises (mk_exc RuntimeError "Failed to fetch exchange rate from Eur to USD" None)).
Proof. vm_compute; reflexivity. Qed.

(* ------------------------------------------------------------------ *)
(** ** The weather tools *)

Lemma randint_range {rng : Type} (draw : Z -> rng -> Z * rng) (a b : Z) (g : rng) :
  a <= b ->
  exists k g', randint draw a b g = Returns (k, g') /\ a <= k <= b.
Proof.
  intros Hab. unfold randint, randbelow.
  destruct (Z.ltb_spec b a) as [Hlt|_]; [lia|].
  destruct (draw (b - a + 1) g) as [r g'].
  exists (a + r mod (b - a + 1)), g'. split; [reflexivity|].
  pose proof (Z.mod_pos_bound r (b - a + 1)). lia.
Qed.

(** C9.  For every city and every state of the generator, [get_humidity]
    returns an integer between 30 and 90, both included, which lies strictly
    inside the range 0..100 of its docstring. *)
Theorem get_humidity_range :
  forall (rng : Type) (draw : Z -> rng -> Z * rng) (city : string) (g : rng),
  exists h g',
    get_humidity draw city g = Returns (h, g')
    /\ 30 <= h <= 90
    /\ 0 < h < 100.
Proof.
  intros rng draw city g. unfold get_humidity.
  destruct (randint_range draw 30 90 g) as (h & g' & Hrun & Hh); [lia|].
  exists h, g'. repeat split; try assumption; lia.
Qed.

(** Both ends of the range are reached: the bounds cannot be narrowed. *)
Lemma get_humidity_ends (city : string) :
  get_humidity (fun _ g => (g, g)) city 0 = Returns (30, 0)
  /\ get_humidity (fun _ g => (g, g)) city 60 = Returns (90, 60).
Proof. split; reflexivity. Qed.

Example get_humidity_sample :
  get_humidity Sample.draw "Paris" 7 = Returns (57, 1282168116).
Proof. vm_compute; reflexivity. Qed.

(* ------------------------------------------------------------------ *)
(** ** The weather demo *)

Lemma choose_query_truthy (line : string) :
  PyStr.truthy (snd (WeatherCLI.choose_query line)) = true.
Proof.
  unfold WeatherCLI.choose_query.
  destruct (PyStr.truthy (PyStr.strip line)) eqn:Hline; simpl.
  - exact Hline.
  - reflexivity.
Qed.

Lemma main_run_queries (agent_run : string -> run_result) (line : string)
    (rest : list string) :
  WeatherCLI.run_queries (fst (WeatherCLI.main agent_run (line :: rest)))
  = [snd (WeatherCLI.choose_query line)].
Proof.
  unfold WeatherCLI.main, input.
  destruct (WeatherCLI.choose_query line) as [notice query] eqn:Hchoice.
  unfold WeatherCLI.choose_query in Hchoice.
  destruct (negb (PyStr.truthy (PyStr.strip line)));
    injection Hchoice as <- <-; unfold WeatherCLI.report; simpl;
    destruct (agent_run _); reflexivity.
Qed.

(** C10.  Whatever line the weather demo reads, the query it hands to
    [agent.run] is not empty: it is the stripped line, or, when that is
    empty, the first example query, ["What's the weather like in Paris?"].
    At the end of input nothing is read and [agent.run] is not called. *)
Theorem weather_demo_query_not_empty :
  forall (agent_run : string -> run_result) (stdin : list string),
    let called := WeatherCLI.run_queries (fst (WeatherCLI.main agent_run stdin)) in
    Forall (fun q => PyStr.truthy q = true /\ q <> "") called
    /\ match stdin with
       | [] => called = []
       | line :: _ =>
           called = [ match PyStr.strip line with
                      | "" => "What's the weather like in Paris?"
                      | query => query
                      end ]
       end.
Proof.
  intros agent_run stdin called. subst called.
  destruct stdin as [|line rest].
  - split; [constructor | reflexivity].
  - rewrite main_run_queries.
    pose proof (choose_query_truthy line) as Hq.
    split.
    + repeat constructor; [exact Hq | now apply truthy_nonempty].
    + unfold WeatherCLI.choose_query.
      destruct (PyStr.strip line); reflexivity.
Qed.

Example weather_demo_blank_line :
  WeatherCLI.main (Sample.agent_run 0) ["   "; "ignored"]
  = ((WeatherCLI.header
        ++ [ WeatherCLI.PrintDefault "What's the weather like in Paris?";
             WeatherCLI.PrintQuery "What's the weather like in Paris?";
             WeatherCLI.PrintProcessing; WeatherCLI.PrintRule "-" false;
             WeatherCLI.CallRun "What's the weather like in Paris?";
             WeatherCLI.PrintRule "=" true; WeatherCLI.PrintResponseHeading;
             WeatherCLI.PrintRule "=" false;
             WeatherCLI.PrintResponse "About What's the weather like in Paris?";
             WeatherCLI.PrintRule "=" false ])%list,
     Finished).
Proof. vm_compute; reflexivity. Qed.

Example weather_demo_given_query :
  WeatherCLI.run_queries (fst (WeatherCLI.main (Sample.agent_run 0) [" Is it hot? "]))
  = ["Is it hot?"].
Proof. vm_compute; reflexivity. Qed.

(* ------------------------------------------------------------------ *)
(** ** Model configurations *)

(** C7, as amended.  Every model configuration in the scripts names its
    model.  The search agent's sets the temperature (0) and no endpoint; the
    currency agent's sets the temperature (0.0) and passes [api_base], which
    is a URL only when the caller of [create_agent] gives one and [None]
    otherwise, as by default; the weather agent's sets the endpoint
    [http://localhost:11434] and no temperature. *)
Theorem llm_configurations :
  forall (model_id : string) (api_base : option string),
    Forall (fun a => has_model_identifier (model a) = true)
      [search_agent; create_agent model_id api_base; create_weather_agent]
    /\ (dict_get "temperature" search_llm = Some (VInt 0)
        /\ has_endpoint search_llm = false)
    /\ (dict_get "temperature" (model (create_agent model_id api_base))
        = Some (VFloat 0 (-1))
        /\ dict_get "api_base" (model (create_agent model_id api_base))
           = Some (of_optional_str api_base)
        /\ has_endpoint (model (create_agent model_id api_base))
           = match api_base with Some _ => true | None => false end)
    /\ (dict_get "api_base" weather_llm = Some (VStr "http://localhost:11434")
        /\ has_temperature weather_llm = false).
Proof.
  intros model_id api_base.
  split; [repeat constructor|].
  split; [split; reflexivity|].
  split; [|split; reflexivity].
  repeat split. destruct api_base; reflexivity.
Qed.

(** C7, as stated, fails: the weather agent's configuration has no
    temperature, the search agent's has no endpoint, and the currency
    agent's default endpoint is [None]. *)
Lemma llm_configurations_incomplete :
  fully_configured weather_llm = false
  /\ has_temperature weather_llm = false
  /\ fully_configured search_llm = false
  /\ has_endpoint search_llm = false
  /\ fully_configured (model (create_agent default_model_id default_api_base)) = false
  /\ existsb (fun a => negb (fully_configured (model a))) script_agents = true.
Proof. repeat split; reflexivity. Qed.

Example llm_configuration_with_endpoint :
  fully_configured (model (create_agent "ollama/llama3.2" (Some "http://localhost:11434")))
  = true.
Proof. reflexivity. Qed.

(* ------------------------------------------------------------------ *)
(** ** The search agent's loop *)

Section SearchLoopFacts.

Variable agent_run : nat -> string -> run_result.

Local Abbreviation loop := (SearchCLI.loop agent_run).

Lemma ask_events (n : nat) (question : string) :
  SearchCLI.questions (SearchCLI.ask agent_run n question) = [question]
  /\ SearchCLI.printed (SearchCLI.ask agent_run n question) = [agent_run n question]
  /\ SearchCLI.prompts (SearchCLI.ask agent_run n question) = 0%nat.
Proof.
  unfold SearchCLI.ask. destruct (agent_run n question); repeat split.
Qed.

Lemma questions_app (a b : list SearchCLI.event) :
  SearchCLI.questions (a ++ b) = (SearchCLI.questions a ++ SearchCLI.questions b)%list.
Proof.
  induction a as [|[] a IH]; simpl; congruence.
Qed.

Lemma printed_app (a b : list SearchCLI.event) :
  SearchCLI.printed (a ++ b) = (SearchCLI.printed a ++ SearchCLI.printed b)%list.
Proof.
  induction a as [|[] a IH]; simpl; congruence.
Qed.

Lemma prompts_app (a b : list SearchCLI.event) :
  SearchCLI.prompts (a ++ b) = (SearchCLI.prompts a + SearchCLI.prompts b)%nat.
Proof.
  unfold SearchCLI.prompts. now rewrite filter_app, length_app.
Qed.


(** Each line before the first that quits is asked once, in order, and its
    answer or its error is printed; one more line is read than is asked. *)
Lemma loop_events (stdin : list string) (n : nat) :
  SearchCLI.questions (fst (loop n stdin))
  = map PyStr.strip (SearchCLI.before_exit stdin)
  /\ SearchCLI.printed (fst (loop n stdin))
     = SearchCLI.results agent_run n (SearchCLI.before_exit stdin)
  /\ SearchCLI.prompts (fst (loop n stdin))
     = S (length (SearchCLI.before_exit stdin)).
Proof.
  revert n. induction stdin as [|line rest IH]; intros n; simpl.
  - repeat split.
  - unfold SearchCLI.quits at 1 2 3.
    destruct (SearchCLI.is_exit (PyStr.strip line)); simpl.
    + repeat split.
    + destruct (IH (S n)) as (Hq & Hp & Hn).
      destruct (loop (S n) rest) as [evs st]. simpl in *.
      destruct (ask_events n (PyStr.strip line)) as (Aq & Ap & An).
      rewrite questions_app, printed_app, Aq, Ap, Hq, Hp.
      repeat split.
      change (SearchCLI.prompts (SearchCLI.Prompt :: ?l))
        with (S (SearchCLI.prompts l)).
      rewrite prompts_app, An, Hn. reflexivity.
Qed.

End SearchLoopFacts.





Example search_loop_session :
  SearchCLI.main Sample.agent_run ["  Rust news "; ""; " ExIt "; "never read"]
  = ([ SearchCLI.PrintBanner;
       SearchCLI.Prompt; SearchCLI.CallRun "Rust news";
       SearchCLI.PrintAnswer "About Rust news";
       SearchCLI.Prompt; SearchCLI.CallRun "";
       SearchCLI.PrintError "empty question";
       SearchCLI.Prompt; SearchCLI.PrintGoodbye ],
     Finished).
Proof. vm_compute; reflexivity. Qed.

(* ------------------------------------------------------------------ *)
(** ** The reasoning loop and the agents' registries *)

Section LoopFacts.

Import ReasoningLoop.

Variable complete : list ToolSpec -> Transcript -> option string.
Variable parse : string -> parsed.

Local Abbreviation steps := (ReasoningLoop.steps complete parse).

Lemma tool_requests_app (a b : Transcript) :
  tool_requests (a ++ b)%list = (tool_requests a + tool_requests b)%nat.
Proof.
  induction a as [|[ | ? [?|] | | ] a IH]; simpl; congruence.
Qed.

Lemma final_answers_app (a b : Transcript) :
  final_answers (a ++ b)%list = (final_answers a + final_answers b)%nat.
Proof.
  induction a as [|[ | ? [?|] | | ] a IH]; simpl; congruence.
Qed.

(** Every step takes at most one model turn. *)
Lemma steps_turns (budget : nat) (reg : Registry) (t : Transcript) (n : nat) :
  (n <= turns (steps budget reg t n) <= n + budget)%nat.
Proof.
  revert t n. induction budget as [|budget IH]; intros t n; simpl.
  - lia.
  - destruct (complete (describe reg) t) as [raw|]; simpl; [|lia].
    destruct (parse raw) as [text call|text|]; simpl; try lia.
    match goal with |- context [steps budget reg ?t' (S n)] =>
      specialize (IH t' (S n)) end.
    lia.
Qed.

(** The loop reads the registry and never replaces it. *)
Lemma steps_registry (budget : nat) (reg : Registry) (t : Transcript) (n : nat) :
  registry (session (steps budget reg t n)) = reg.
Proof.
  revert t n. induction budget as [|budget IH]; intros t n; simpl.
  - reflexivity.
  - destruct (complete (describe reg) t) as [raw|]; simpl; [|reflexivity].
    destruct (parse raw) as [text call|text|]; simpl; try reflexivity.
    apply IH.
Qed.

(** The budget is reported as exceeded only after every step was a model
    turn that asked for a tool. *)
Lemma steps_exceeded (budget : nat) (reg : Registry) (t : Transcript) (n : nat)
    (last : Transcript) :
  result (steps budget reg t n) = inr (StepBudgetExceededError last) ->
  turns (steps budget reg t n) = (n + budget)%nat
  /\ last = transcript (session (steps budget reg t n))
  /\ tool_requests last = (tool_requests t + budget)%nat
  /\ final_answers last = final_answers t.
Proof.
  revert t n. induction budget as [|budget IH]; intros t n; simpl.
  - intros H. injection H as <-. repeat split; lia.
  - destruct (complete (describe reg) t) as [raw|]; simpl; [|discriminate].
    destruct (parse raw) as [text call|text|]; simpl; try discriminate.
    intros H. destruct (IH _ _ H) as (Ht & Hl & Hr & Hf).
    rewrite Ht, <- Hl, Hr, Hf, tool_requests_app, final_answers_app. simpl.
    repeat split; lia.
Qed.

(** A backend that asks for a tool at every turn uses the whole budget. *)
Lemma steps_always_calls_tool (budget : nat) (reg : Registry) (t : Transcript)
    (n : nat) :
  always_calls_tool complete parse ->
  result (steps budget reg t n)
  = inr (StepBudgetExceededError (transcript (session (steps budget reg t n))))
  /\ turns (steps budget reg t n) = (n + budget)%nat.
Proof.
  intros Halways. revert t n. induction budget as [|budget IH]; intros t n; simpl.
  - split; [reflexivity | lia].
  - destruct (Halways (describe reg) t) as (raw & text & call & -> & ->).
    destruct (IH (t ++ [ModelUtterance text (Some call); ToolCallEntry call;
                        ToolResult (toolName call)
                          (dispatch reg (toolName call) (callArguments call))])%list
                 (S n)) as [Hres Hturns].
    split; [exact Hres | lia].
Qed.

(** A run that returns an answer recorded it as its last utterance. *)
Lemma steps_answer (budget : nat) (reg : Registry) (t : Transcript) (n : nat)
    (text : string) :
  result (steps budget reg t n) = inl text ->
  exists before,
    transcript (session (steps budget reg t n))
    = (before ++ [ModelUtterance text None])%list.
Proof.
  revert t n. induction budget as [|budget IH]; intros t n; simpl.
  - discriminate.
  - destruct (complete (describe reg) t) as [raw|]; simpl; [|discriminate].
    destruct (parse raw) as [text' call|text'|]; simpl; try discriminate.
    + apply IH.
    + intros H. injection H as ->. now exists t.
Qed.

End LoopFacts.

Lemma registry_names (docs : tool -> string)
    (implement : tool -> ReasoningLoop.arguments -> ReasoningLoop.value + string)
    (a : agent) :
  map ReasoningLoop.name (ReasoningLoop.registry_of docs implement a) = tool_names a.
Proof.
  unfold ReasoningLoop.registry_of, tool_names. rewrite map_map. reflexivity.
Qed.

(** C1.  The currency agent is built with [max_steps = 10], and a run of the
    loop under a budget takes at most that many model turns: at most 10 for
    the currency agent.  When the run fails because the budget is exceeded,
    it took exactly 10 turns, each of which asked for a tool and none of
    which gave a final answer, and the error carries the last transcript.  A
    backend that asks for a tool at every turn makes the run fail in that
    way, after 10 turns. *)
Theorem currency_agent_step_budget :
  forall (complete : list ReasoningLoop.ToolSpec -> ReasoningLoop.Transcript
                     -> option string)
         (parse : string -> ReasoningLoop.parsed)
         (docs : tool -> string)
         (implement : tool -> ReasoningLoop.arguments -> ReasoningLoop.value + string)
         (default_steps : nat)
         (model_id : string) (api_base : option string) (query : string),
    let a := create_agent model_id api_base in
    let r := ReasoningLoop.agent_run complete parse docs implement default_steps
               a query in
    max_steps a = Some 10%nat
    /\ (ReasoningLoop.turns r <= 10)%nat
    /\ (forall last,
          ReasoningLoop.result r = inr (ReasoningLoop.StepBudgetExceededError last) ->
          ReasoningLoop.turns r = 10%nat
          /\ last = ReasoningLoop.transcript (ReasoningLoop.session r)
          /\ ReasoningLoop.tool_requests last = 10%nat
          /\ ReasoningLoop.final_answers last = 0%nat)
    /\ (ReasoningLoop.always_calls_tool complete parse ->
          ReasoningLoop.result r
          = inr (ReasoningLoop.StepBudgetExceededError
                   (ReasoningLoop.transcript (ReasoningLoop.session r)))
          /\ ReasoningLoop.turns r = 10%nat).
Proof.
  intros complete parse docs implement default_steps model_id api_base query a r.
  subst a r. unfold ReasoningLoop.agent_run, ReasoningLoop.run. simpl max_steps.
  cbv iota.
  split; [reflexivity|]. split; [|split].
  - match goal with |- context [ReasoningLoop.steps _ _ ?b ?reg ?t ?n] =>
      pose proof (steps_turns complete parse b reg t n) end.
    lia.
  - intros last H. apply steps_exceeded in H. exact H.
  - intros Halways. now apply steps_always_calls_tool.
Qed.

(** The general bound, for every budget. *)
Lemma run_step_budget
    (complete : list ReasoningLoop.ToolSpec -> ReasoningLoop.Transcript -> option string)
    (parse : string -> ReasoningLoop.parsed) (reg : ReasoningLoop.Registry)
    (query : string) (maxSteps : nat) :
  (ReasoningLoop.turns (ReasoningLoop.run complete parse reg query maxSteps)
   <= maxSteps)%nat.
Proof.
  unfold ReasoningLoop.run.
  pose proof (steps_turns complete parse maxSteps reg
                [ReasoningLoop.UserMessage query] 0).
  lia.
Qed.

Example currency_agent_never_answered :
  let r := ReasoningLoop.agent_run Sample.complete Sample.parse Sample.docs
             Sample.implement 20 (create_agent default_model_id default_api_base)
             "Convert 100 USD to EUR" in
  ReasoningLoop.turns r = 10%nat
  /\ (exists last, ReasoningLoop.result r
                   = inr (ReasoningLoop.StepBudgetExceededError last)
                   /\ length last = 31%nat).
Proof.
  split; [reflexivity|]. eexists. split; reflexivity.
Qed.

(** C5.  Each agent of the scripts is built over a fixed list of tools with
    distinct names: [web_search] for the search agent; [fetch_live_rate] and
    [calculate] for the currency agent; [get_weather], [get_temperature] and
    [get_humidity] for the weather agent.  The registry a run works with is
    the one built from that list, and the run ends with the same registry. *)
Theorem tool_registries_fixed :
  forall (model_id : string) (api_base : option string),
    tool_names search_agent = ["web_search"]
    /\ tool_names (create_agent model_id api_base) = ["fetch_live_rate"; "calculate"]
    /\ tool_names create_weather_agent
       = ["get_weather"; "get_temperature"; "get_humidity"]
    /\ Forall (fun a => NoDup (tool_names a))
         [search_agent; create_agent model_id api_base; create_weather_agent]
    /\ (forall complete parse docs implement default_steps a query,
          let r := ReasoningLoop.agent_run complete parse docs implement
                     default_steps a query in
          ReasoningLoop.registry (ReasoningLoop.session r)
          = ReasoningLoop.registry_of docs implement a
          /\ map ReasoningLoop.name (ReasoningLoop.registry (ReasoningLoop.session r))
             = tool_names a).
Proof.
  intros model_id api_base.
  split; [reflexivity|]. split; [reflexivity|]. split; [reflexivity|].
  split.
  - repeat constructor; simpl; intuition discriminate.
  - intros complete parse docs implement default_steps a query r. subst r.
    unfold ReasoningLoop.agent_run, ReasoningLoop.run.
    rewrite steps_registry. split; [reflexivity | apply registry_names].
Qed.

(** X9.  For every city and every state of the generator,
    [get_temperature] returns an integer between -10 and 40, both
    included. *)
Lemma get_temperature_range {rng : Type} (draw : Z -> rng -> Z * rng)
    (city : string) (g : rng) :
  exists t g', get_temperature draw city g = Returns (t, g') /\ -10 <= t <= 40.
Proof.
  unfold get_temperature. apply randint_range. lia.
Qed.

(* ================================================================== *)
(** * Further properties of the scripts *)

(* ------------------------------------------------------------------ *)
(** ** [fetch_live_rate]: requests and endpoints *)

Lemma fetch_live_rate_requests {F : Type} (float_of_int : Z -> option F)
    (float_of_str : string -> option F)
    (http_get : request -> requests_error + response F)
    (from_currency to_currency : string) :
  requests_of (fst (fetch_live_rate float_of_int float_of_str http_get
                      from_currency to_currency))
  = up_to_first (yields float_of_int float_of_str http_get
                   (PyStr.lower from_currency) (PyStr.lower to_currency))
      (urls (PyStr.lower from_currency)).
Proof.
  unfold requests_of. rewrite fetch_live_rate_log, for_urls_log, map_map.
  apply map_id.
Qed.

(** X1.  [fetch_live_rate] issues one or two requests and never more.  The
    first goes to the jsdelivr address of the lower-cased source currency;
    the fallback address is contacted exactly when the first endpoint gave
    no rate.  The timeouts of all requests of a call add up to at most 10
    seconds. *)
Theorem fetch_live_rate_request_count :
  forall (F : Type) (float_of_int : Z -> option F) (float_of_str : string -> option F)
         (http_get : request -> requests_error + response F)
         (from_currency to_currency : string),
    let base := PyStr.lower from_currency in
    let target := PyStr.lower to_currency in
    let primary :=
      mk_request
        ("https://cdn.jsdelivr.net/npm/@fawazahmed0/currency-api@latest/v1/currencies/"
           ++ base ++ ".json") 5 in
    let fallback :=
      mk_request
        ("https://latest.currency-api.pages.dev/v1/currencies/" ++ base ++ ".json") 5 in
    let reqs := requests_of (fst (fetch_live_rate float_of_int float_of_str http_get
                                    from_currency to_currency)) in
    reqs = (if yields float_of_int float_of_str http_get base target primary
            then [primary] else [primary; fallback])
    /\ (1 <= length reqs <= 2)%nat
    /\ fold_right Z.add 0 (map req_timeout reqs) <= 10.
Proof.
  intros F foi fos http_get from_currency to_currency base target primary fallback
    reqs.
  assert (Hreqs : reqs = if yields foi fos http_get base target primary
                         then [primary] else [primary; fallback]).
  { subst reqs. rewrite fetch_live_rate_requests. fold base target.
    unfold urls. fold primary fallback. simpl.
    destruct (yields foi fos http_get base target primary); [reflexivity|].
    destruct (yields foi fos http_get base target fallback); reflexivity. }
  split; [exact Hreqs|]. rewrite Hreqs.
  destruct (yields foi fos http_get base target primary); simpl; lia.
Qed.

(** X2.  An endpoint yields the rate [f] exactly when its response has a
    status outside 400..599, its body is a JSON object holding, under the
    lower-cased source code, an object that holds under the lower-cased
    target code a value [float] converts to [f].  An error status, a body
    that is not JSON or not an object, a missing code, or rates that are not
    an object never yield a rate. *)
Theorem try_endpoint_rate_iff :
  forall (F : Type) (float_of_int : Z -> option F) (float_of_str : string -> option F)
         (http_get : request -> requests_error + response F)
         (base target : string) (req : request) (f : F),
    try_endpoint float_of_int float_of_str http_get base target req = Rate f
    <-> exists resp items rates v,
          http_get req = inr resp
          /\ (status_code resp < 400 \/ 600 <= status_code resp)
          /\ json_body resp = Some (JDict items)
          /\ dict_get base items = Some (JDict rates)
          /\ dict_get target rates = Some v
          /\ to_float float_of_int float_of_str v = inr f.
Proof.
  intros F foi fos http_get base target req f. unfold try_endpoint. split.
  - destruct (http_get req) as [e|resp] eqn:Hget; [discriminate|].
    unfold raise_for_status.
    destruct (Z.leb_spec 400 (status_code resp)) as [Hlo|Hlo];
      destruct (Z.ltb_spec (status_code resp) 600) as [Hhi|Hhi];
      simpl; try discriminate;
      (destruct (json_body resp) as [data|] eqn:Hbody; [|discriminate];
       destruct data as [ | | | | | |items]; simpl; try discriminate;
       destruct (dict_get base items) as [rates|] eqn:Hbase; simpl;
         [|discriminate];
       destruct rates as [ | | | |s|l|rates]; simpl; try discriminate;
         [ destruct (PyStr.contains target s); discriminate
         | destruct (existsb (json_is_str target) l); discriminate
         | ];
       destruct (dict_get target rates) as [v|] eqn:Htarget; [|discriminate];
       destruct (to_float foi fos v) as [e|f'] eqn:Hfloat; [discriminate|];
       intros H; injection H as <-;
       exists resp, items, rates, v; repeat split; auto; lia).
  - intros (resp & items & rates & v & -> & Hstatus & -> & Hbase & Htarget & Hfloat).
    unfold raise_for_status.
    assert (Hok : (400 <=? status_code resp) && (status_code resp <? 600) = false).
    { apply andb_false_iff. destruct Hstatus; [left; apply Z.leb_gt | right; apply Z.ltb_ge];
        lia. }
    rewrite Hok. simpl. rewrite Hbase. simpl. rewrite Htarget, Hfloat. reflexivity.
Qed.

Example fetch_primary_answers :
  fetch_live_rate Sample.float_of_int Sample.float_of_str Fixture.http_get "USD" "JPY"
  = ([ (mk_request
          "https://cdn.jsdelivr.net/npm/@fawazahmed0/currency-api@latest/v1/currencies/usd.json"
          5,
        Rate (150, 0)) ],
     Returns (150, 0)).
Proof. vm_compute; reflexivity. Qed.

(* ------------------------------------------------------------------ *)
(** ** [web_search] *)

Lemma append_length (s t : string) :
  String.length (s ++ t) = (String.length s + String.length t)%nat.
Proof.
  induction s as [|c s IH]; simpl; congruence.
Qed.

Lemma str_join_length (sep : string) (parts : list string) :
  String.length (str_join sep parts)
  = (total_length parts + String.length sep * pred (length parts))%nat.
Proof.
  induction parts as [|p rest IH]; simpl.
  - lia.
  - destruct rest as [|q rest].
    + simpl. lia.
    + rewrite !append_length, IH. simpl. lia.
Qed.

Lemma bodies_all (results : list search_result) :
  forallb has_body results = true ->
  bodies results = Returns (map body_of results).
Proof.
  induction results as [|r rest IH]; simpl; [reflexivity|].
  intros H. apply andb_true_iff in H as [Hr Hrest].
  unfold getitem, has_body, body_of in *.
  destruct (dict_get "body" r); [|discriminate].
  simpl. now rewrite (IH Hrest).
Qed.

Lemma bodies_missing (results : list search_result) :
  forallb has_body results = false ->
  bodies results = Raises (mk_exc KeyError "'body'" None).
Proof.
  induction results as [|r rest IH]; simpl; [discriminate|].
  intros H. unfold getitem, has_body in *.
  destruct (dict_get "body" r); simpl in *; [|reflexivity].
  now rewrite (IH H).
Qed.

(** X3.  When the search answers and every result has a body, [web_search]
    returns the bodies in the order of the results, joined by single spaces:
    the length of the text is the sum of the lengths of the bodies plus one
    for each gap, and no result gives the empty text. *)
Theorem web_search_joins_bodies :
  forall (ddgs_text : string -> nat -> outcome (list search_result))
         (query : string) (results : list search_result),
    ddgs_text query 3%nat = Returns results ->
    forallb has_body results = true ->
    web_search ddgs_text query = Returns (str_join " " (map body_of results))
    /\ String.length (str_join " " (map body_of results))
       = (total_length (map body_of results) + pred (length results))%nat
    /\ (results = [] -> web_search ddgs_text query = Returns "").
Proof.
  intros ddgs_text query results Hsearch Hall.
  assert (Hrun : web_search ddgs_text query
                 = Returns (str_join " " (map body_of results))).
  { unfold web_search. rewrite Hsearch. simpl. now rewrite (bodies_all _ Hall). }
  split; [exact Hrun|]. split.
  - rewrite str_join_length, length_map. simpl. lia.
  - intros ->. exact Hrun.
Qed.

Lemma web_search_joins_bodies_witness :
  web_search Fixture.ddgs_text "rust" = Returns "A language empowering everyone"
  /\ String.length "A language empowering everyone" = (10 + 19 + 1)%nat
  /\ ([ [("title", "Rust"); ("href", "https://rust-lang.org"); ("body", "A language")];
        [("title", "Book"); ("body", "empowering everyone")] ] = []
      -> web_search Fixture.ddgs_text "rust" = Returns "").
Proof.
  apply (web_search_joins_bodies Fixture.ddgs_text "rust"
           [ [("title", "Rust"); ("href", "https://rust-lang.org");
              ("body", "A language")];
             [("title", "Book"); ("body", "empowering everyone")] ]);
    reflexivity.
Defined.

(** X4.  [web_search] has no handler of its own.  When a result of the
    search has no body the call raises [KeyError] for ['body'], whatever the
    other results hold; when the search itself raises, that exception leaves
    [web_search] unchanged. *)
Theorem web_search_failures :
  forall (ddgs_text : string -> nat -> outcome (list search_result))
         (query : string),
    (forall results,
        ddgs_text query 3%nat = Returns results ->
        forallb has_body results = false ->
        web_search ddgs_text query = Raises (mk_exc KeyError "'body'" None))
    /\ (forall e, ddgs_text query 3%nat = Raises e ->
                  web_search ddgs_text query = Raises e).
Proof.
  intros ddgs_text query. split.
  - intros results Hsearch Hsome. unfold web_search. rewrite Hsearch. simpl.
    now rewrite (bodies_missing _ Hsome).
  - intros e Hsearch. unfold web_search. now rewrite Hsearch.
Qed.

Example web_search_broken_result :
  web_search Fixture.ddgs_text "broken" = Raises (mk_exc KeyError "'body'" None)
  /\ web_search Fixture.ddgs_text "nothing" = Returns ""
  /\ web_search Fixture.ddgs_text "anything else"
     = Raises (mk_exc (OtherException "RatelimitException") "202 Ratelimit" None).
Proof. repeat split. Qed.

(* ------------------------------------------------------------------ *)
(** ** The search agent's loop: leaving it *)

Lemma lower_char_is_e (c : ascii) :
  Ascii.eqb (PyStr.lower_char c) "e" = Ascii.eqb c "e" || Ascii.eqb c "E".
Proof. destruct c as [[] [] [] [] [] [] [] []]; reflexivity. Qed.

Lemma lower_char_is_x (c : ascii) :
  Ascii.eqb (PyStr.lower_char c) "x" = Ascii.eqb c "x" || Ascii.eqb c "X".
Proof. destruct c as [[] [] [] [] [] [] [] []]; reflexivity. Qed.

Lemma lower_char_is_i (c : ascii) :
  Ascii.eqb (PyStr.lower_char c) "i" = Ascii.eqb c "i" || Ascii.eqb c "I".
Proof. destruct c as [[] [] [] [] [] [] [] []]; reflexivity. Qed.

Lemma lower_char_is_t (c : ascii) :
  Ascii.eqb (PyStr.lower_char c) "t" = Ascii.eqb c "t" || Ascii.eqb c "T".
Proof. destruct c as [[] [] [] [] [] [] [] []]; reflexivity. Qed.

(** X5.  A line stops the search loop exactly when, stripped of surrounding
    white space, it is one of the sixteen upper- and lower-case spellings of
    [exit]; no other text over the code points below 256 does. *)
Theorem search_loop_exit_spellings :
  forall line : string,
    SearchCLI.quits line = exit_spelling (PyStr.strip line).
Proof.
  intros line. unfold SearchCLI.quits, SearchCLI.is_exit.
  destruct (PyStr.strip line) as [|c1 [|c2 [|c3 [|c4 [|c5 s]]]]]; simpl;
    rewrite ?lower_char_is_e, ?lower_char_is_x, ?lower_char_is_i, ?lower_char_is_t;
    repeat match goal with
           | |- context [Ascii.eqb ?a ?b] => destruct (Ascii.eqb a b)
           end;
    reflexivity.
Qed.

Example exit_spellings_sample :
  SearchCLI.quits "  eXiT " = true /\ SearchCLI.quits "exit now" = false
  /\ SearchCLI.quits "quit" = false /\ SearchCLI.quits "" = false.
Proof. repeat split. Qed.

Lemma loop_after_exit (agent_run : nat -> string -> run_result)
    (before after : list string) (line : string) (n : nat) :
  SearchCLI.quits line = true ->
  SearchCLI.loop agent_run n (before ++ line :: after)
  = SearchCLI.loop agent_run n (before ++ [line]).
Proof.
  intros Hquit. revert n.
  induction before as [|l before IH]; intros n; simpl.
  - unfold SearchCLI.quits in Hquit. now rewrite Hquit.
  - destruct (SearchCLI.is_exit (PyStr.strip l)); [reflexivity|].
    now rewrite IH.
Qed.

(** X6.  Once a line stops the search loop nothing after it is read: the
    run is the same whatever follows that line on standard input, it ends
    by [break], and [Goodbye!] is the last thing printed. *)
Theorem search_loop_ignores_input_after_exit :
  forall (agent_run : nat -> string -> run_result)
         (before after : list string) (line : string),
    SearchCLI.quits line = true ->
    SearchCLI.main agent_run (before ++ line :: after)
    = SearchCLI.main agent_run (before ++ [line])
    /\ snd (SearchCLI.main agent_run (before ++ line :: after)) = Finished
    /\ last (fst (SearchCLI.main agent_run (before ++ line :: after)))
         SearchCLI.PrintBanner
       = SearchCLI.PrintGoodbye.
Proof.
  intros agent_run before after line Hquit.
  unfold SearchCLI.main. rewrite (loop_after_exit _ _ after _ _ Hquit).
  split; [reflexivity|].
  assert (Hend : forall n,
             snd (SearchCLI.loop agent_run n (before ++ [line])) = Finished
             /\ forall d, last (fst (SearchCLI.loop agent_run n (before ++ [line]))) d
                          = SearchCLI.PrintGoodbye).
  { induction before as [|l before IH]; intros n; simpl.
    - unfold SearchCLI.quits in Hquit. rewrite Hquit. split; reflexivity.
    - destruct (SearchCLI.is_exit (PyStr.strip l)); [split; reflexivity|].
      destruct (IH (S n)) as [Hst Hlast].
      destruct (SearchCLI.loop agent_run (S n) (before ++ [line])) as [evs st].
      simpl in *. split; [exact Hst|].
      intros d. unfold SearchCLI.ask.
      destruct evs as [|e evs]; [specialize (Hlast SearchCLI.Prompt); discriminate|].
      destruct (agent_run n (PyStr.strip l)); simpl; apply (Hlast d). }
  destruct (Hend 0%nat) as [Hst Hlast].
  destruct (SearchCLI.loop agent_run 0 (before ++ [line])) as [evs st].
  simpl in *. split; [exact Hst|].
  destruct evs as [|e evs]; [specialize (Hlast SearchCLI.Prompt); discriminate|].
  apply Hlast.
Qed.

Lemma search_loop_ignores_input_after_exit_witness :
  SearchCLI.main Sample.agent_run (["one"; "two"] ++ " Exit" :: ["three"; "four"])
  = SearchCLI.main Sample.agent_run (["one"; "two"] ++ [" Exit"])
  /\ snd (SearchCLI.main Sample.agent_run (["one"; "two"] ++ " Exit" :: ["three"; "four"]))
     = Finished
  /\ last (fst (SearchCLI.main Sample.agent_run
                  (["one"; "two"] ++ " Exit" :: ["three"; "four"])))
       SearchCLI.PrintBanner
     = SearchCLI.PrintGoodbye.
Proof.
  apply (search_loop_ignores_input_after_exit Sample.agent_run ["one"; "two"]
           ["three"; "four"] " Exit").
  reflexivity.
Defined.

(* ------------------------------------------------------------------ *)
(** ** The weather demo: the query and the single run *)

Lemma lstrip_first (s : string) : not_space (first_char (PyStr.lstrip s)) = true.
Proof.
  induction s as [|c s IH]; simpl; [reflexivity|].
  destruct (PyStr.is_space c) eqn:Hc; [exact IH|]. simpl. now rewrite Hc.
Qed.

Lemma lstrip_fixed (s : string) :
  not_space (first_char s) = true -> PyStr.lstrip s = s.
Proof.
  destruct s as [|c s]; simpl; [reflexivity|].
  intros H. apply negb_true_iff in H. now rewrite H.
Qed.

Lemma rstrip_first (s : string) :
  not_space (first_char s) = true ->
  not_space (first_char (PyStr.rstrip s)) = true.
Proof.
  destruct s as [|c s]; simpl; [reflexivity|].
  intros H. destruct (PyStr.rstrip s).
  - destruct (PyStr.is_space c) eqn:Hc; simpl; [reflexivity | now rewrite Hc].
  - exact H.
Qed.

Lemma rstrip_last (s : string) : not_space (last_char (PyStr.rstrip s)) = true.
Proof.
  induction s as [|c s IH]; simpl; [reflexivity|].
  destruct (PyStr.rstrip s) as [|d r].
  - destruct (PyStr.is_space c) eqn:Hc; simpl; [reflexivity | now rewrite Hc].
  - exact IH.
Qed.

Lemma rstrip_idempotent (s : string) : PyStr.rstrip (PyStr.rstrip s) = PyStr.rstrip s.
Proof.
  induction s as [|c s IH]; simpl; [reflexivity|].
  destruct (PyStr.rstrip s) as [|d r] eqn:Hr.
  - destruct (PyStr.is_space c) eqn:Hc; simpl; [reflexivity | now rewrite Hc].
  - change (PyStr.rstrip (String c (String d r)))
      with (match PyStr.rstrip (String d r) with
            | EmptyString =>
                if PyStr.is_space c then EmptyString else String c EmptyString
            | x => String c x
            end).
    now rewrite IH.
Qed.

Lemma strip_ends (s : string) :
  not_space (first_char (PyStr.strip s)) = true
  /\ not_space (last_char (PyStr.strip s)) = true.
Proof.
  unfold PyStr.strip. split.
  - apply rstrip_first, lstrip_first.
  - apply rstrip_last.
Qed.

Lemma strip_idempotent (s : string) : PyStr.strip (PyStr.strip s) = PyStr.strip s.
Proof.
  unfold PyStr.strip.
  rewrite (lstrip_fixed (PyStr.rstrip (PyStr.lstrip s))).
  - apply rstrip_idempotent.
  - apply rstrip_first, lstrip_first.
Qed.

(** X7.  The query the weather demo settles on is already stripped: it
    neither begins nor ends with white space, stripping it again changes
    nothing, and entering it as the line gives the same query back, without
    the notice of the default. *)
Theorem weather_demo_query_stripped :
  forall line : string,
    let query := snd (WeatherCLI.choose_query line) in
    PyStr.strip query = query
    /\ not_space (first_char query) = true
    /\ not_space (last_char query) = true
    /\ WeatherCLI.choose_query query = ([], query).
Proof.
  intros line query.
  assert (Hfixed : PyStr.strip query = query).
  { subst query. unfold WeatherCLI.choose_query.
    destruct (negb (PyStr.truthy (PyStr.strip line))); simpl.
    - reflexivity.
    - apply strip_idempotent. }
  assert (Htruthy : PyStr.truthy query = true) by apply choose_query_truthy.
  split; [exact Hfixed|].
  rewrite <- Hfixed at 1 2. destruct (strip_ends query) as [Hf Hl].
  split; [exact Hf|]. split; [exact Hl|].
  unfold WeatherCLI.choose_query. rewrite Hfixed, Htruthy. reflexivity.
Qed.


Example weather_demo_failing_agent :
  WeatherCLI.main (fun _ => RunError "connection refused") ["  Berlin?  "; "x"]
  = ((WeatherCLI.header
        ++ [ WeatherCLI.PrintQuery "Berlin?"; WeatherCLI.PrintProcessing;
             WeatherCLI.PrintRule "-" false; WeatherCLI.CallRun "Berlin?";
             WeatherCLI.PrintError "connection refused" ])%list,
     Finished).
Proof. vm_compute; reflexivity. Qed.

Example weather_demo_header :
  WeatherCLI.main (Sample.agent_run 0) []
  = ([ WeatherCLI.PrintRule "=" true; WeatherCLI.PrintTitle;
       WeatherCLI.PrintRule "=" false; WeatherCLI.PrintInitializing;
       WeatherCLI.CreateAgent; WeatherCLI.PrintReady;
       WeatherCLI.PrintRule "=" false; WeatherCLI.PrintExamplesHeading;
       WeatherCLI.PrintRule "=" false;
       WeatherCLI.PrintExample 1 "What's the weather like in Paris?";
       WeatherCLI.PrintExample 2 "Tell me about the weather in Tokyo and its humidity";
       WeatherCLI.PrintExample 3 "Is it hot in New York today?";
       WeatherCLI.PrintExample 4 "Compare the temperature in London and Berlin";
       WeatherCLI.PrintRule "-" true; WeatherCLI.PrintOwnQueryHeading;
       WeatherCLI.PrintRule "-" false; WeatherCLI.Prompt ],
     Uncaught EOFError).
Proof. vm_compute; reflexivity. Qed.

(* ------------------------------------------------------------------ *)
(** ** [get_weather] *)

Lemma choice_member {rng A : Type} (draw : Z -> rng -> Z * rng) (seq : list A)
    (g : rng) :
  seq <> [] ->
  exists x, choice draw seq g = Returns (x, snd (draw (Z.of_nat (length seq)) g))
            /\ In x seq.
Proof.
  intros Hne. destruct seq as [|a seq]; [contradiction|].
  unfold choice, randbelow.
  destruct (draw (Z.of_nat (length (a :: seq))) g) as [r g'].
  eexists. split; [reflexivity|].
  apply nth_In.
  pose proof (Z.mod_pos_bound r (Z.of_nat (length (a :: seq)))) as Hb.
  simpl length in *. lia.
Qed.

(** X10.  For every city and every state of the generator, [get_weather]
    returns, without raising, the sentence
    [The weather in <city> is <condition> with a temperature of <temp>°C],
    where the city is the argument as given, the condition is one of the
    five listed conditions and the temperature one of the six listed values,
    hence between 5 and 30.  The generator is drawn from twice, first for
    the condition. *)
Theorem get_weather_sentence :
  forall (rng : Type) (draw : Z -> rng -> Z * rng) (city : string) (g : rng),
  exists condition temp,
    get_weather_text draw city g
    = Returns ("The weather in " ++ city ++ " is " ++ condition
                 ++ " with a temperature of " ++ str_of_int temp
                 ++ String (PyStr.chr 176) "C",
               snd (draw 6 (snd (draw 5 g))))
    /\ In condition ["sunny"; "rainy"; "cloudy"; "snowy"; "windy"]
    /\ In temp [15; 20; 25; 30; 5; 10]
    /\ 5 <= temp <= 30.
Proof.
  intros rng draw city g.
  destruct (choice_member draw weather_conditions g) as (c & Hc & Hcin);
    [discriminate|].
  destruct (choice_member draw temperatures (snd (draw 5 g))) as (t & Ht & Htin);
    [discriminate|].
  exists c, t. split; [|split; [exact Hcin | split; [exact Htin|]]].
  - change (Z.of_nat (length weather_conditions)) with 5 in Hc, Ht.
    change (Z.of_nat (length temperatures)) with 6 in Ht.
    unfold get_weather_text, get_weather, bind.
    rewrite Hc. cbn [fst snd]. rewrite Ht. reflexivity.
  - simpl in Htin. intuition lia.
Qed.

Example get_weather_sample :
  get_weather_text Sample.draw "Paris" 7
  = Returns ("The weather in Paris is rainy with a temperature of 30"
               ++ String (PyStr.chr 176) "C",
             642666333).
Proof. vm_compute; reflexivity. Qed.

(* ------------------------------------------------------------------ *)
(** ** The currency demo *)


Example currency_demo_first_fails :
  CurrencyDemo.printed
    (fst (CurrencyDemo.main
            (fun n _ => match n with O => RunError "no key" | _ => Answer "0.92" end)))
  = [RunError "no key"; Answer "0.92"; Answer "0.92"].
Proof. reflexivity. Qed.

(* ------------------------------------------------------------------ *)
(** ** The search agent's loop: what the agent is asked *)

Lemma is_exit_no_spelling (s : string) :
  SearchCLI.is_exit s = false -> exit_spelling s = false.
Proof.
  unfold SearchCLI.is_exit.
  destruct s as [|c1 [|c2 [|c3 [|c4 [|c5 s]]]]]; simpl; try reflexivity.
  rewrite lower_char_is_e, lower_char_is_x, lower_char_is_i, lower_char_is_t.
  repeat match goal with
         | |- context [Ascii.eqb ?a ?b] => destruct (Ascii.eqb a b)
         end;
    simpl; congruence.
Qed.

Lemma loop_questions_prefix (agent_run : nat -> string -> run_result)
    (before tail : list string) (n : nat) :
  existsb SearchCLI.quits before = false ->
  SearchCLI.questions (fst (SearchCLI.loop agent_run n (before ++ tail)))
  = (map PyStr.strip before
       ++ SearchCLI.questions
            (fst (SearchCLI.loop agent_run (n + length before) tail)))%list.
Proof.
  revert n. induction before as [|l before IH]; intros n Hnone; simpl.
  - now rewrite Nat.add_0_r.
  - simpl in Hnone. apply orb_false_iff in Hnone as [Hl Hrest].
    unfold SearchCLI.quits in Hl. rewrite Hl.
    specialize (IH (S n) Hrest).
    destruct (SearchCLI.loop agent_run (S n) (before ++ tail)) as [evs st].
    simpl in *. rewrite questions_app.
    destruct (ask_events agent_run n (PyStr.strip l)) as (-> & _ & _).
    simpl. rewrite IH. now rewrite Nat.add_succ_r.
Qed.

(** X12.  Every question the search loop hands to [agent.run] is stripped
    (it neither begins nor ends with white space) and is no spelling of
    [exit].  A blank line, wherever it comes before the line that quits, is
    not skipped: it is handed on as the empty question, after the questions
    of the lines before it and before those of the lines after it. *)
Theorem search_loop_questions_stripped :
  forall (agent_run : nat -> string -> run_result) (stdin : list string),
    Forall (fun q => PyStr.strip q = q
                     /\ not_space (first_char q) = true
                     /\ not_space (last_char q) = true
                     /\ exit_spelling q = false)
      (SearchCLI.questions (fst (SearchCLI.main agent_run stdin)))
    /\ (forall before line after,
          stdin = (before ++ line :: after)%list ->
          existsb SearchCLI.quits before = false ->
          PyStr.strip line = "" ->
          SearchCLI.questions (fst (SearchCLI.main agent_run stdin))
          = (map PyStr.strip before
               ++ "" :: SearchCLI.questions
                          (fst (SearchCLI.loop agent_run (S (length before)) after)))%list).
Proof.
  intros agent_run stdin. split.
  - unfold SearchCLI.main.
    pose proof (loop_events agent_run stdin 0) as (Hq & _ & _).
    destruct (SearchCLI.loop agent_run 0 stdin) as [evs st]. simpl in *.
    rewrite Hq. clear Hq evs st.
    induction stdin as [|line rest IH]; simpl; [constructor|].
    destruct (SearchCLI.quits line) eqn:Hline; [constructor|].
    simpl. constructor; [|exact IH].
    destruct (strip_ends line) as [Hf Hl].
    repeat split; auto using strip_idempotent, is_exit_no_spelling.
  - intros before line after -> Hnone Hblank.
    unfold SearchCLI.main.
    pose proof (loop_questions_prefix agent_run before (line :: after) 0 Hnone) as Hq.
    destruct (SearchCLI.loop agent_run 0 (before ++ line :: after)) as [evs st].
    simpl in *. rewrite Hq. f_equal.
    rewrite Hblank. change (SearchCLI.is_exit "") with false. cbv iota.
    destruct (SearchCLI.loop agent_run (S (length before)) after) as [evs' st'].
    simpl. unfold SearchCLI.ask.
    destruct (agent_run (length before) ""); reflexivity.
Qed.

Example search_loop_blank_lines :
  SearchCLI.questions
    (fst (SearchCLI.main Sample.agent_run ["first"; "   "; ""; " last "; "EXIT"; " "]))
  = ["first"; ""; ""; "last"].
Proof. vm_compute; reflexivity. Qed.
